(** * Workspace Manager (app.js): stats, broadcast and route handlers

    A shallow embedding of [src/app.js].  The asynchronous handlers are
    written in a state-and-exception monad over a [World] holding the
    document store, the WebSocket clients and a log of store operations.
    JavaScript numbers that go through division are IEEE 754 binary64 values
    ([spec_float] at precision 53).

    The theorems concern the handler bodies; the route guard [requireAuth]
    lives in middleware/auth.js and is not part of this development. *)

From Stdlib Require Import ZArith NArith Ascii String List Bool Lia.
From Stdlib Require Import SpecFloat.
From stdpp Require Import base tactics option list strings.

Local Open Scope string_scope.
Local Open Scope list_scope.

(** ** JavaScript numbers *)

Module Number.

Definition prec : Z := 53.
Definition emax : Z := 1024.

(** A Number is a binary64 float. *)
Definition number : Type := spec_float.

(** Conversion of an integer; exact whenever |z| <= 2^53. *)
Definition of_Z (z : Z) : number := binary_normalize prec emax z 0 false.

Definition of_nat (n : nat) : number := of_Z (Z.of_nat n).

(** [x / y] and [x * y], rounded to nearest, ties to even. *)
Definition div (x y : number) : number := SFdiv prec emax x y.
Definition mul (x y : number) : number := SFmul prec emax x y.

(** [Math.round(x)]: NaN, infinities and zeros are returned as they are;
    otherwise the integer floor(x + 1/2), computed exactly, with -0 for
    -0.5 <= x < 0.  A finite float [S754_finite s m e] denotes
    (-1)^s * m * 2^e. *)
Definition round (x : number) : number :=
  match x with
  | S754_finite s m e =>
      if (0 <=? e)%Z then x
      else
        let d := (2 ^ (- e))%Z in
        let sm := if s then Z.neg m else Z.pos m in
        let n := ((2 * sm + d) / (2 * d))%Z in
        if (n =? 0)%Z then S754_zero s else of_Z n
  | _ => x
  end.

End Number.

(** ** JavaScript values of form fields *)

(** A field of a parsed form body is [undefined] (absent) or a string.
    The nested objects and arrays that the extended urlencoded parser and
    the JSON parser also admit are not represented; statements that depend
    on a field being a string say so. *)
Definition field : Type := option string.

(** Truthiness: [undefined] and the empty string are falsy. *)
Definition truthy (v : field) : bool :=
  match v with
  | Some s => negb (s =? "")
  | None => false
  end.

(** [a || b] *)
Definition js_or (a b : field) : field := if truthy a then a else b.

(** [a === b] on fields. *)
Definition strict_eq (a b : field) : bool :=
  match a, b with
  | Some x, Some y => x =? y
  | None, None => true
  | _, _ => false
  end.

(** [n || d] where [n] is an integer-valued number: 0 is falsy. *)
Definition num_or (n d : Z) : Z := if (n =? 0)%Z then d else n.

(** ** Documents *)

Definition ObjectId : Type := N.

(** Modelled from the spec: the schema of models/User.js (name, email,
    passwordHash), which is not among the sources. *)
Module UserDoc.
Record t := mk {
  _id : ObjectId;
  name : string;
  email : string;
  passwordHash : string }.
End UserDoc.

(** Modelled from the spec: the schema of models/Project.js (title required,
    optional description, integer progress defaulting to 0). *)
Module ProjectDoc.
Record t := mk {
  _id : ObjectId;
  title : string;
  description : field;
  progress : Z }.
End ProjectDoc.

(** Modelled from the spec: the schema of models/Task.js (title required,
    boolean completed defaulting to false, reference to the owning project). *)
Module TaskDoc.
Record t := mk {
  _id : ObjectId;
  title : string;
  completed : bool;
  projectId : ObjectId }.
End TaskDoc.

(** ** The stats payload and the messages pushed to viewers *)

Module Summary.
Record t := mk {
  id : ObjectId;
  name : string;
  description : field;
  progress : Z }.
End Summary.

Module Stats.
Record t := mk {
  totalProjects : nat;
  totalTasks : nat;
  overallCompletion : Number.number;
  projects : list Summary.t }.
End Stats.

(** The value that [JSON.stringify] serialises before [client.send]. *)
Inductive Message :=
| InfoMessage (message : string)
| StatsMessage (data : Stats.t).

(** ** The world a handler runs in *)

Record Db := mkDb {
  users : list UserDoc.t;
  projects : list ProjectDoc.t;
  tasks : list TaskDoc.t }.

(** A WebSocket client: its [readyState] (1 is OPEN) and the frames handed
    to its [send], oldest first. *)
Record Client := mkClient {
  readyState : nat;
  sent : list Message }.

Inductive Collection := Users | Projects | Tasks.

(** Store operations issued, for the log. *)
Inductive DbOp :=
| Read (c : Collection)
| Write (c : Collection).

Record World := mkWorld {
  db : Db;
  nextId : ObjectId;          (* source of fresh ObjectIds *)
  wss_clients : list Client;  (* wss.clients, in insertion order *)
  oplog : list DbOp }.        (* store operations, oldest first *)

(** ** Exceptions and the handler monad *)

Inductive exn :=
| Error (message : string)
| TypeError (message : string)
| CastError (value : string)
| ValidationError (message : string)
| DocumentNotFoundError.

Inductive completion (A : Type) :=
| Normal (a : A)
| Throw (e : exn).
Arguments Normal {A} a.
Arguments Throw {A} e.

Definition M (A : Type) : Type := World -> completion A * World.

#[global] Instance M_ret : MRet M := fun A a w => (Normal a, w).

#[global] Instance M_bind : MBind M := fun A B f m w =>
  match m w with
  | (Normal a, w') => f a w'
  | (Throw e, w') => (Throw e, w')
  end.

Definition throw {A} (e : exn) : M A := fun w => (Throw e, w).

(** [try { body } catch (err) { handler err }] *)
Definition try_catch {A} (body : M A) (handler : exn -> M A) : M A := fun w =>
  match body w with
  | (Throw e, w') => handler e w'
  | r => r
  end.

Definition get_db : M Db := fun w => (Normal (db w), w).

Definition put_db (d : Db) : M unit := fun w =>
  (Normal tt, mkWorld d (nextId w) (wss_clients w) (oplog w)).

Definition log (op : DbOp) : M unit := fun w =>
  (Normal tt, mkWorld (db w) (nextId w) (wss_clients w) (oplog w ++ [op])).

(** A fresh ObjectId, as the driver generates one for a new document. *)
Definition fresh_id : M ObjectId := fun w =>
  (Normal (nextId w),
   mkWorld (db w) (N.succ (nextId w)) (wss_clients w) (oplog w)).

(** ** Requests and responses *)

Module Body.
Record t := mk {
  title : field;
  name : field;
  description : field;
  email : field;
  password : field;
  confirmPassword : field }.
End Body.

Record Request := mkRequest {
  body : Body.t;
  params_id : string }.         (* req.params.id *)

Inductive Locals :=
| FormLocals (layout : option string) (error : option string)
| ErrorLocals (error : exn).

Inductive Reply :=
| render (status : nat) (view : string) (locals : Locals)
| redirect (url : string) (cookie : option string).

(** What a route handler leaves to Express: a response, or [next(err)]. *)
Inductive Outcome :=
| Responded (r : Reply)
| next (err : exn).

(** The error-handling middleware at the end of the chain. *)
Definition errorHandler (err : exn) : Reply :=
  render 500 "error" (ErrorLocals err).

(** Express running one handler: a response it sent is the reply, [next(err)]
    goes to [errorHandler], and an exception that escapes the async handler
    is an unhandled rejection, with no reply. *)
Definition serve (handler : Request -> M Outcome) (req : Request)
    (w : World) : option Reply * World :=
  match handler req w with
  | (Normal (Responded r), w') => (Some r, w')
  | (Normal (next err), w') => (Some (errorHandler err), w')
  | (Throw _, w') => (None, w')
  end.

(** ** Store operations *)

(** A [required] string path: [undefined] and the empty string fail
    validation. *)
Definition required (path : string) (v : field) : M string :=
  match v with
  | Some s =>
      if s =? "" then throw (ValidationError (path +:+ " is required"))
      else mret s
  | None => throw (ValidationError (path +:+ " is required"))
  end.

(** [task.completed = b] on the in-memory document. *)
Definition set_completed (b : bool) (task : TaskDoc.t) : TaskDoc.t :=
  TaskDoc.mk (TaskDoc._id task) (TaskDoc.title task) b
    (TaskDoc.projectId task).

(** The first stored task carrying [doc]'s [_id] is replaced by [doc]. *)
Fixpoint replace_by_id (doc : TaskDoc.t) (l : list TaskDoc.t)
    : option (list TaskDoc.t) :=
  match l with
  | [] => None
  | x :: r =>
      if (TaskDoc._id x =? TaskDoc._id doc)%N then Some (doc :: r)
      else option_map (cons x) (replace_by_id doc r)
  end.

(** ** Pages rendered with data *)

(** A row of the tasks page. *)
Module TaskRow.
Record t := mk {
  id : ObjectId;
  title : string;
  completed : bool;
  projectTitle : string }.
End TaskRow.

(** The locals of the views that show store data. *)
Inductive PageLocals :=
| DashboardLocals (stats : Stats.t)
| ProjectsLocals (projects : list Summary.t)
| TasksLocals (tasks : list TaskRow.t)
| ProjectDetailLocals (project : Summary.t) (tasks : list TaskDoc.t).

(** What a page handler leaves to Express: a view rendered with status 200,
    or [next(err)]. *)
Inductive PageOutcome :=
| page (view : string) (locals : PageLocals)
| page_next (err : exn).

(** ** Concrete library functions and sample data, for the examples *)

Module Sample.

Definition hex_digit (c : ascii) : option N :=
  let n := N_of_ascii c in
  if (48 <=? n)%N && (n <=? 57)%N then Some (n - 48)%N
  else if (97 <=? n)%N && (n <=? 102)%N then Some (n - 87)%N
  else if (65 <=? n)%N && (n <=? 70)%N then Some (n - 55)%N
  else None.

Fixpoint hex_value (s : string) (acc : N) : option N :=
  match s with
  | EmptyString => Some acc
  | String c r =>
      match hex_digit c with
      | Some d => hex_value r (16 * acc + d)%N
      | None => None
      end
  end.

(** A 24-digit hexadecimal string is an ObjectId; nothing else is. *)
Definition castObjectId (s : string) : option ObjectId :=
  if (String.length s =? 24)%nat then hex_value s 0%N else None.

Definition bcrypt_hash (s : string) : string := "$2a$10$" +:+ s.
Definition bcrypt_compare (s hash : string) : bool := bcrypt_hash s =? hash.
Definition jwt_sign (id : ObjectId) (email : string) : string :=
  "jwt." +:+ email.

Definition no_body : Body.t := Body.mk None None None None None None.

(** Forty tasks of project 1, the first twenty-three completed. *)
Definition tasks_23_of_40 : list TaskDoc.t :=
  map (fun i => TaskDoc.mk (N.of_nat i) "task" (i <? 23)%nat 1%N)
      (seq 0 40).

Definition world_23_of_40 : World :=
  mkWorld (mkDb [] [] tasks_23_of_40) 40%N [] [].

Definition three_tasks : list TaskDoc.t :=
  [TaskDoc.mk 4%N "Wireframes" true 1%N;
   TaskDoc.mk 5%N "Copy" false 1%N;
   TaskDoc.mk 6%N "Launch" false 1%N].

Definition project1 : ProjectDoc.t :=
  ProjectDoc.mk 1%N "Website" (Some "Relaunch") 40.

Definition ada : UserDoc.t :=
  UserDoc.mk 100%N "Ada" "ada@example.org" (bcrypt_hash "s3cret").

Definition viewers : list Client :=
  [mkClient 1 []; mkClient 3 []; mkClient 0 []; mkClient 1 []].

Definition world : World :=
  mkWorld (mkDb [ada] [project1] three_tasks) 200%N viewers [].

(** A request on /tasks/:id/toggle and its siblings. *)
Definition on_id (id : string) : Request := mkRequest no_body id.

Definition register_form (name email password confirm : string)
    : Request :=
  mkRequest
    (Body.mk None (Some name) None (Some email) (Some password)
       (Some confirm)) "".

Definition login_form (email password : string) : Request :=
  mkRequest (Body.mk None None None (Some email) (Some password) None) "".

Definition task5 : string := "000000000000000000000005".
Definition task_absent : string := "0000000000000000000000ff".

End Sample.

(** Further requests for the examples. *)
Module Scenario.

Definition bob_registers : Request :=
  Sample.register_form "Bob" "bob@example.org" "hunter2" "hunter2".

Definition bob_logs_in : Request :=
  Sample.login_form "bob@example.org" "hunter2".


Definition project1_id : string := "000000000000000000000001".

Definition new_project : Request :=
  mkRequest (Body.mk (Some "Docs") None (Some "Handbook") None None None) "".

Definition new_task : Request :=
  mkRequest (Body.mk (Some "Outline") None None None None None) project1_id.

Definition new_task_bad_id : Request :=
  mkRequest (Body.mk (Some "Outline") None None None None None) "not-an-id".

End Scenario.

Section App.

(** Casting of a string to an ObjectId by the store's client library. *)
Variable castObjectId : string -> option ObjectId.
(** [bcrypt.hash(s, 10)] and [bcrypt.compare(s, hash)] on strings. *)
Variable bcrypt_hash : string -> string.
Variable bcrypt_compare : string -> string -> bool.
(** [jwt.sign({ id, email }, JWT_SECRET, { expiresIn: "7d" })] *)
Variable jwt_sign : ObjectId -> string -> string.

Set Default Proof Using "Type".

Definition Project_find : M (list ProjectDoc.t) :=
  log (Read Projects);;
  d ← get_db;
  mret (projects d).

Definition Task_find : M (list TaskDoc.t) :=
  log (Read Tasks);;
  d ← get_db;
  mret (tasks d).

Definition Project_create (title description : field) (progress : Z)
    : M ProjectDoc.t :=
  i ← fresh_id;
  title ← required "title" title;
  let doc := ProjectDoc.mk i title description progress in
  log (Write Projects);;
  d ← get_db;
  put_db (mkDb (users d) (projects d ++ [doc]) (tasks d));;
  mret doc.

(** [completed] takes its schema default; the project reference is cast
    but not looked up. *)
Definition Task_create (title : field) (projectId : string) : M TaskDoc.t :=
  i ← fresh_id;
  title ← required "title" title;
  match castObjectId projectId with
  | None => throw (ValidationError "projectId: Cast to ObjectId failed")
  | Some p =>
      let doc := TaskDoc.mk i title false p in
      log (Write Tasks);;
      d ← get_db;
      put_db (mkDb (users d) (projects d) (tasks d ++ [doc]));;
      mret doc
  end.

Definition Task_findById (id : string) : M (option TaskDoc.t) :=
  match castObjectId id with
  | None => throw (CastError id)
  | Some i =>
      log (Read Tasks);;
      d ← get_db;
      mret (List.find (fun t => (TaskDoc._id t =? i)%N) (tasks d))
  end.

(** [task.save()] *)
Definition Task_save (task : TaskDoc.t) : M TaskDoc.t :=
  log (Write Tasks);;
  d ← get_db;
  match replace_by_id task (tasks d) with
  | None => throw DocumentNotFoundError
  | Some l =>
      put_db (mkDb (users d) (projects d) l);;
      mret task
  end.

(** [User.findOne({ email })]; a filter on an [undefined] email matches
    only documents without an email, and every stored user has one. *)
Definition User_findOne (email : field) : M (option UserDoc.t) :=
  log (Read Users);;
  d ← get_db;
  mret (match email with
        | Some e => List.find (fun u => UserDoc.email u =? e) (users d)
        | None => None
        end).

Definition User_create (name email : field) (passwordHash : string)
    : M UserDoc.t :=
  i ← fresh_id;
  name ← required "name" name;
  email ← required "email" email;
  let doc := UserDoc.mk i name email passwordHash in
  log (Write Users);;
  d ← get_db;
  put_db (mkDb (users d ++ [doc]) (projects d) (tasks d));;
  mret doc.

(** bcryptjs rejects arguments that are not strings. *)
Definition bcrypt_hash_async (s : field) : M string :=
  match s with
  | Some p => mret (bcrypt_hash p)
  | None => throw (Error "Illegal arguments: undefined, number")
  end.

Definition bcrypt_compare_async (s : field) (hash : string) : M bool :=
  match s with
  | Some p => mret (bcrypt_compare p hash)
  | None => throw (Error "Illegal arguments: undefined, string")
  end.

(** ** Helpers *)

Definition computeStats : M Stats.t :=
  projects ← Project_find;
  tasks ← Task_find;
  let totalProjects := length projects in
  let totalTasks := length tasks in
  let overallCompletion :=
    if (0 <? totalTasks)%nat then
      let completedTasks := length (List.filter TaskDoc.completed tasks) in
      Number.round
        (Number.mul
           (Number.div (Number.of_nat completedTasks)
                       (Number.of_nat totalTasks))
           (Number.of_Z 100))
    else Number.of_Z 0 in
  let formattedProjects :=
    map (fun p => Summary.mk (ProjectDoc._id p) (ProjectDoc.title p)
                    (ProjectDoc.description p)
                    (num_or (ProjectDoc.progress p) 0))
        projects in
  mret (Stats.mk totalProjects totalTasks overallCompletion
          formattedProjects).

(** [client.send(message)] *)
Definition send (message : Message) (client : Client) : Client :=
  mkClient (readyState client) (sent client ++ [message]).

(** [wss.clients.forEach(visit)] *)
Definition wss_clients_forEach (visit : Client -> Client) : M unit :=
  fun w =>
    (Normal tt,
     mkWorld (db w) (nextId w) (map visit (wss_clients w)) (oplog w)).

Definition broadcastStats : M unit :=
  stats ← computeStats;
  let message := StatsMessage stats in
  wss_clients_forEach (fun client =>
    if (readyState client =? 1)%nat then send message client
    else client).

(** ** Route handlers *)

Definition auth_form (view message : string) : Outcome :=
  Responded (render 200 view
               (FormLocals (Some "auth-layout") (Some message))).

(** POST /register *)
Definition post_register (req : Request) : M Outcome :=
  try_catch
    (let name := Body.name (body req) in
     let email := Body.email (body req) in
     let password := Body.password (body req) in
     let confirmPassword := Body.confirmPassword (body req) in
     if negb (truthy name) || negb (truthy email) || negb (truthy password)
     then mret (auth_form "register" "All fields are required.")
     else if negb (strict_eq password confirmPassword)
     then mret (auth_form "register" "Passwords do not match.")
     else
       existing ← User_findOne email;
       match existing with
       | Some _ => mret (auth_form "register" "Email already registered.")
       | None =>
           passwordHash ← bcrypt_hash_async password;
           user ← User_create name email passwordHash;
           let token := jwt_sign (UserDoc._id user) (UserDoc.email user) in
           mret (Responded (redirect "/" (Some token)))
       end)
    (fun err => mret (next err)).

(** POST /login *)
Definition post_login (req : Request) : M Outcome :=
  try_catch
    (let email := Body.email (body req) in
     let password := Body.password (body req) in
     user ← User_findOne email;
     match user with
     | None => mret (auth_form "login" "Invalid email or password.")
     | Some user =>
         ok ← bcrypt_compare_async password (UserDoc.passwordHash user);
         if negb ok
         then mret (auth_form "login" "Invalid email or password.")
         else
           let token := jwt_sign (UserDoc._id user) (UserDoc.email user) in
           mret (Responded (redirect "/" (Some token)))
     end)
    (fun err => mret (next err)).

(** POST /projects *)
Definition post_projects (req : Request) : M Outcome :=
  try_catch
    (let title := js_or (Body.title (body req)) (Body.name (body req)) in
     if negb (truthy title)
     then mret (Responded (render 200 "new-project"
                             (FormLocals None
                                (Some "Project name is required."))))
     else
       Project_create title (Body.description (body req)) 0;;
       broadcastStats;;
       mret (Responded (redirect "/projects" None)))
    (fun err => mret (next err)).

(** POST /projects/:id/tasks *)
Definition post_projects_id_tasks (req : Request) : M Outcome :=
  try_catch
    (if negb (truthy (Body.title (body req)))
     then throw (Error "Task title required")
     else
       Task_create (Body.title (body req)) (params_id req);;
       broadcastStats;;
       mret (Responded (redirect ("/projects/" +:+ params_id req) None)))
    (fun err => mret (next err)).

(** POST /tasks/:id/toggle; reading [completed] of [null] raises a
    TypeError. *)
Definition post_tasks_id_toggle (req : Request) : M Outcome :=
  try_catch
    (task ← Task_findById (params_id req);
     match task with
     | None =>
         throw (TypeError
                  "Cannot read properties of null (reading 'completed')")
     | Some task =>
         let task := set_completed (negb (TaskDoc.completed task)) task in
         Task_save task;;
         broadcastStats;;
         mret (Responded (redirect "back" None))
     end)
    (fun err => mret (next err)).

(** The three domain-mutating actions and their handlers. *)
Inductive mutating_action := createProject | createTask | toggleTask.

Definition handler_of (a : mutating_action) : Request -> M Outcome :=
  match a with
  | createProject => post_projects
  | createTask => post_projects_id_tasks
  | toggleTask => post_tasks_id_toggle
  end.

(** ** Further store operations *)

Definition Project_findById (id : string) : M (option ProjectDoc.t) :=
  match castObjectId id with
  | None => throw (CastError id)
  | Some i =>
      log (Read Projects);;
      d ← get_db;
      mret (List.find (fun p => (ProjectDoc._id p =? i)%N) (projects d))
  end.

(** [Task.find({ projectId })] *)
Definition Task_find_by_projectId (projectId : ObjectId)
    : M (list TaskDoc.t) :=
  log (Read Tasks);;
  d ← get_db;
  mret (List.filter (fun t => (TaskDoc.projectId t =? projectId)%N)
          (tasks d)).

(** [Task.find().populate("projectId")]: every task comes with the project
    its reference names, or [null] when no project carries that id.  The
    projects are queried only when there is a task to populate. *)
Definition Task_find_populate : M (list (TaskDoc.t * option ProjectDoc.t)) :=
  log (Read Tasks);;
  d ← get_db;
  match tasks d with [] => mret tt | _ :: _ => log (Read Projects) end;;
  mret (map (fun t =>
               (t, List.find
                     (fun p => (ProjectDoc._id p =? TaskDoc.projectId t)%N)
                     (projects d)))
          (tasks d)).

(** ** Page handlers *)

(** GET / *)
Definition get_dashboard (req : Request) : M PageOutcome :=
  try_catch
    (stats ← computeStats;
     mret (page "dashboard" (DashboardLocals stats)))
    (fun err => mret (page_next err)).

(** GET /projects *)
Definition get_projects (req : Request) : M PageOutcome :=
  try_catch
    (projects ← Project_find;
     mret (page "projects"
             (ProjectsLocals
                (map (fun p =>
                        Summary.mk (ProjectDoc._id p) (ProjectDoc.title p)
                          (ProjectDoc.description p)
                          (num_or (ProjectDoc.progress p) 0))
                   projects))))
    (fun err => mret (page_next err)).

(** GET /projects/:id *)
Definition get_projects_id (req : Request) : M PageOutcome :=
  try_catch
    (project ← Project_findById (params_id req);
     match project with
     | None => throw (Error "Project not found")
     | Some project =>
         tasks ← Task_find_by_projectId (ProjectDoc._id project);
         mret (page "project-detail"
                 (ProjectDetailLocals
                    (Summary.mk (ProjectDoc._id project)
                       (ProjectDoc.title project)
                       (ProjectDoc.description project)
                       (num_or (ProjectDoc.progress project) 0))
                    tasks))
     end)
    (fun err => mret (page_next err)).

(** GET /tasks *)
Definition get_tasks (req : Request) : M PageOutcome :=
  try_catch
    (tasks ← Task_find_populate;
     let formattedTasks :=
       map (fun '(task, project) =>
              TaskRow.mk (TaskDoc._id task) (TaskDoc.title task)
                (TaskDoc.completed task)
                (match project with
                 | Some project => ProjectDoc.title project
                 | None => "Unknown"
                 end))
         tasks in
     mret (page "tasks" (TasksLocals formattedTasks)))
    (fun err => mret (page_next err)).

(** ** The connection event *)

(** [ws.send(message)] on the connection at position [ws] of
    [wss.clients]. *)
Definition ws_send (ws : nat) (message : Message) : M unit := fun w =>
  (Normal tt,
   mkWorld (db w) (nextId w) (alter (send message) ws (wss_clients w))
     (oplog w)).

(** The listener of [wss.on("connection", ...)]. *)
Definition on_connection (ws : nat) : M unit :=
  ws_send ws (InfoMessage "Connected to live updates");;
  stats ← computeStats;
  ws_send ws (StatsMessage stats).

(** A viewer connects: the server adds the open socket to [wss.clients]
    and emits the event. *)
Definition connect : M unit := fun w =>
  on_connection (length (wss_clients w))
    (mkWorld (db w) (nextId w) (wss_clients w ++ [mkClient 1 []]) (oplog w)).

(** The four pages that show store data and their handlers. *)
Inductive page_route := dashboard | projectList | projectDetail | taskList.

Definition page_handler_of (r : page_route) : Request -> M PageOutcome :=
  match r with
  | dashboard => get_dashboard
  | projectList => get_projects
  | projectDetail => get_projects_id
  | taskList => get_tasks
  end.

(** The completion figure as [computeStats] computes it from the number of
    completed tasks and the number of tasks. *)
Definition percentage (completedTasks totalTasks : nat) : Number.number :=
  if (0 <? totalTasks)%nat then
    Number.round
      (Number.mul
         (Number.div (Number.of_nat completedTasks)
            (Number.of_nat totalTasks))
         (Number.of_Z 100))
  else Number.of_Z 0.

(** ** Vocabulary of the statements *)

(** round(num / den) for den > 0, halves rounded up: floor(num/den + 1/2). *)
Definition round_half_up (num den : Z) : Z := ((2 * num + den) / (2 * den))%Z.

(** A view re-rendered with an inline message, status 200. *)
Definition inline_error (r : option Reply) : Prop :=
  exists view layout message,
    r = Some (render 200 view (FormLocals layout (Some message))).

(** No write was issued beyond those already in the log of [w]. *)
Definition no_new_write (w w' : World) : Prop :=
  forall c, In (Write c) (oplog w') -> In (Write c) (oplog w).

(** The world once the task at position [k] has been looked up and saved
    as [doc]. *)
Definition saved_at (k : nat) (doc : TaskDoc.t) (w : World) : World :=
  mkWorld
    (mkDb (users (db w)) (projects (db w)) (<[k := doc]> (tasks (db w))))
    (nextId w) (wss_clients w) ((oplog w ++ [Read Tasks]) ++ [Write Tasks]).

(** A request that a mutating action accepts in world [w]: a project
    creation with a non-empty title, or with a non-empty name and no title;
    a task creation with a non-empty title under an id that casts; a toggle
    under the id of a stored task. *)
Definition accepted (a : mutating_action) (req : Request) (w : World)
    : Prop :=
  match a with
  | createProject =>
      exists t, t <> "" /\
        (Body.title (body req) = Some t \/
         (truthy (Body.title (body req)) = false /\
          Body.name (body req) = Some t))
  | createTask =>
      exists t pid,
        Body.title (body req) = Some t /\ t <> "" /\
        castObjectId (params_id req) = Some pid
  | toggleTask =>
      exists i t,
        castObjectId (params_id req) = Some i /\
        In t (tasks (db w)) /\ TaskDoc._id t = i
  end.

(** What [broadcastStats] does to one client when the snapshot is
    [stats]: an open client is sent the stats message, any other client
    is left as it was. *)
Definition delivered (stats : Stats.t) (c c' : Client) : Prop :=
  readyState c' = readyState c /\
  sent c' = if (readyState c =? 1)%nat
            then sent c ++ [StatsMessage stats] else sent c.

(** Equality test on numbers that are zeros or finite. *)
Definition number_eqb (a b : Number.number) : bool :=
  match a, b with
  | S754_zero s, S754_zero s' => Bool.eqb s s'
  | S754_finite s m e, S754_finite s' m' e' =>
      Bool.eqb s s' && (m =? m')%positive && (e =? e')%Z
  | _, _ => false
  end.

(** The test run on every pair of counts up to a bound: the figure is the
    number of an integer [z] between 0 and 100 that is the half-up rounding
    of 100 * c / t, or one below it at an exact tie; it is 0 for c = 0 and
    100 for c = t > 0. *)
Definition percentage_checked (c t : nat) : bool :=
  let figure := percentage c t in
  let r := round_half_up (100 * Z.of_nat c) (Z.of_nat t) in
  let ok (z : Z) :=
    number_eqb figure (Number.of_Z z) &&
    (0 <=? z)%Z && (z <=? 100)%Z &&
    (if (c =? 0)%nat then (z =? 0)%Z else true) &&
    (if (c =? t)%nat && (0 <? t)%nat then (z =? 100)%Z else true) in
  ok r ||
  (ok (r - 1)%Z &&
   ((200 * Z.of_nat c) mod (2 * Z.of_nat t) =? Z.of_nat t)%Z).

Definition percentages_checked (bound : nat) : bool :=
  forallb (fun t => forallb (fun c => percentage_checked c t) (seq 0 (S t)))
    (seq 0 (S bound)).

(** ** Running the monad *)

Ltac run :=
  cbv [mbind M_bind mret M_ret throw try_catch get_db put_db log fresh_id
       required Project_find Task_find Project_create Task_create
       Task_findById Task_save User_findOne User_create
       bcrypt_hash_async bcrypt_compare_async computeStats broadcastStats
       wss_clients_forEach auth_form serve errorHandler];
  cbn [db nextId wss_clients oplog users projects tasks fst snd].

(** Closes a goal from [H : In (Write c) ops] where [ops] is a literal
    list of reads. *)
Ltac only_reads H :=
  simpl in H;
  repeat (destruct H as [H|H]; [discriminate H|]);
  destruct H.

Lemma num_or_zero (n : Z) : num_or n 0 = n.
Proof. unfold num_or. destruct (Z.eqb_spec n 0); congruence. Qed.

Lemma strict_eq_spec (a b : field) : strict_eq a b = true <-> a = b.
Proof.
  destruct a as [x|], b as [y|]; simpl; try (split; congruence).
  destruct (String.eqb_spec x y); split; congruence.
Qed.

(** [computeStats] always returns, reads both collections and touches
    nothing else. *)
Lemma computeStats_returns (w : World) :
  exists stats,
    computeStats w =
      (Normal stats,
       mkWorld (db w) (nextId w) (wss_clients w)
         (oplog w ++ [Read Projects; Read Tasks])) /\
    Stats.totalProjects stats = length (projects (db w)) /\
    Stats.totalTasks stats = length (tasks (db w)).
Proof.
  eexists. run. rewrite <- app_assoc. split; [reflexivity|]. split; reflexivity.
Qed.

(** ** Stats aggregation *)

Lemma summaries_verbatim (ps : list ProjectDoc.t) :
  Forall2
    (fun p s =>
       Summary.id s = ProjectDoc._id p /\
       Summary.progress s = ProjectDoc.progress p)
    ps
    (map (fun p => Summary.mk (ProjectDoc._id p) (ProjectDoc.title p)
                     (ProjectDoc.description p)
                     (num_or (ProjectDoc.progress p) 0)) ps).
Proof.
  induction ps as [|p ps IH]; simpl; constructor; auto.
  simpl. split; [reflexivity | apply num_or_zero].
Qed.

(** C4. In every state of the stores the stats payload lists the projects
    in store order, each with its stored progress unchanged, and that list
    is the same whatever the task collection holds. *)
Theorem stats_progress_verbatim (w : World) :
  exists stats w',
    computeStats w = (Normal stats, w') /\
    Forall2
      (fun p s =>
         Summary.id s = ProjectDoc._id p /\
         Summary.progress s = ProjectDoc.progress p)
      (projects (db w)) (Stats.projects stats) /\
    forall ts : list TaskDoc.t,
      exists stats2 w2,
        computeStats
          (mkWorld (mkDb (users (db w)) (projects (db w)) ts)
             (nextId w) (wss_clients w) (oplog w)) = (Normal stats2, w2) /\
        Stats.projects stats2 = Stats.projects stats.
Proof.
  do 2 eexists. split; [run; reflexivity|]. cbn [Stats.projects]. split.
  - apply summaries_verbatim.
  - intros ts. do 2 eexists. split; [run; reflexivity|]. reflexivity.
Qed.

(** With no task in the store the completion figure is 0. *)
Lemma overallCompletion_no_tasks (w : World) :
  tasks (db w) = [] ->
  exists stats w',
    computeStats w = (Normal stats, w') /\
    Stats.overallCompletion stats = Number.of_Z 0.
Proof.
  intros H. do 2 eexists. split; [run; reflexivity|].
  cbn [Stats.overallCompletion]. rewrite H. reflexivity.
Qed.

(** The completion figure depends on the two counts only. *)
Lemma overallCompletion_counts (w : World) :
  tasks (db w) <> [] ->
  exists stats w',
    computeStats w = (Normal stats, w') /\
    Stats.overallCompletion stats =
      Number.round
        (Number.mul
           (Number.div
              (Number.of_nat
                 (length (List.filter TaskDoc.completed (tasks (db w)))))
              (Number.of_nat (length (tasks (db w)))))
           (Number.of_Z 100)).
Proof.
  intros H. do 2 eexists. split; [run; reflexivity|].
  cbn [Stats.overallCompletion].
  destruct (tasks (db w)) as [|t l]; [congruence|]. reflexivity.
Qed.

(** C1. With 40 tasks of which 23 are completed, [computeStats] reports
    57, while round-half-up of 100 * 23 / 40 = 57.5 is 58: the quotient
    23/40 is rounded to a double before it is multiplied by 100, and the
    product 57.49999999999999 lies below the tie. *)
Theorem overallCompletion_23_of_40 :
  exists stats w',
    computeStats Sample.world_23_of_40 = (Normal stats, w') /\
    Stats.totalTasks stats = 40%nat /\
    length (List.filter TaskDoc.completed
              (tasks (db Sample.world_23_of_40))) = 23%nat /\
    Stats.overallCompletion stats = Number.of_Z 57 /\
    round_half_up (100 * 23) 40 = 58%Z.
Proof.
  do 2 eexists. split; [vm_compute; reflexivity|].
  repeat split; vm_compute; reflexivity.
Qed.

(** ** Looking a task up and saving it back *)

Lemma find_by_id_None (i : ObjectId) (l : list TaskDoc.t) :
  List.find (fun t => (TaskDoc._id t =? i)%N) l = None <->
  forall t, In t l -> TaskDoc._id t <> i.
Proof.
  induction l as [|x l IH]; simpl.
  - split; [intros _ t [] | reflexivity].
  - destruct (N.eqb_spec (TaskDoc._id x) i) as [E|E].
    + split; [discriminate|]. intros H. destruct (H x); auto.
    + rewrite IH. split.
      * intros H t [<-|Ht]; auto.
      * intros H t Ht. apply H. now right.
Qed.

(** The task found under an id sits at some position [k], no earlier task
    carries the id, and saving a document with that id rewrites position
    [k] and nothing else. *)
Lemma find_then_replace (i : ObjectId) (l : list TaskDoc.t)
    (t doc : TaskDoc.t) :
  List.find (fun t => (TaskDoc._id t =? i)%N) l = Some t ->
  TaskDoc._id doc = i ->
  exists k : nat,
    l !! k = Some t /\
    TaskDoc._id t = i /\
    replace_by_id doc l = Some (<[k := doc]> l) /\
    List.find (fun t => (TaskDoc._id t =? i)%N) (<[k := doc]> l) = Some doc.
Proof.
  intros Hfind Hdoc. induction l as [|x l IH]; simpl in *; [discriminate|].
  destruct (N.eqb_spec (TaskDoc._id x) i) as [E|E].
  - injection Hfind as ->. exists 0%nat. simpl.
    rewrite Hdoc, E, !N.eqb_refl. auto.
  - destruct (IH Hfind) as (k & Hk & Hid & Hrep & Hfind').
    exists (S k). simpl. rewrite Hdoc.
    destruct (N.eqb_spec (TaskDoc._id x) i); [contradiction|].
    rewrite Hrep, Hfind'. auto.
Qed.

Lemma set_completed_twice (t : TaskDoc.t) :
  set_completed (negb (negb (TaskDoc.completed t)))
    (set_completed (negb (TaskDoc.completed t)) t) = t.
Proof.
  destruct t as [i ti c p]. unfold set_completed. simpl.
  now rewrite negb_involutive.
Qed.

(** ** Broadcast *)

Lemma delivered_map (stats : Stats.t) (cs : list Client) :
  Forall2 (delivered stats) cs
    (map (fun client =>
            if (readyState client =? 1)%nat
            then send (StatsMessage stats) client else client) cs).
Proof.
  induction cs as [|c cs IH]; simpl; constructor; auto.
  unfold delivered. destruct (readyState c =? 1)%nat; simpl; auto.
Qed.

Lemma computeStats_db (w1 w2 : World) :
  db w1 = db w2 -> fst (computeStats w1) = fst (computeStats w2).
Proof. intros H. run. now rewrite H. Qed.

(** [broadcastStats] always returns; it leaves the store alone and hands
    the snapshot of the current store to the open clients. *)
Lemma broadcastStats_returns (w : World) :
  exists stats w',
    broadcastStats w = (Normal tt, w') /\
    fst (computeStats w) = Normal stats /\
    db w' = db w /\
    nextId w' = nextId w /\
    oplog w' = oplog w ++ [Read Projects; Read Tasks] /\
    Forall2 (delivered stats) (wss_clients w) (wss_clients w').
Proof.
  do 2 eexists. split; [run; reflexivity|]. run.
  split; [reflexivity|]. rewrite <- app_assoc.
  repeat split. apply delivered_map.
Qed.

(** ** The toggle handler *)

Lemma toggle_found (req : Request) (w : World) (i : ObjectId)
    (t : TaskDoc.t) :
  castObjectId (params_id req) = Some i ->
  List.find (fun t => (TaskDoc._id t =? i)%N) (tasks (db w)) = Some t ->
  exists k : nat,
    tasks (db w) !! k = Some t /\
    TaskDoc._id t = i /\
    List.find (fun t => (TaskDoc._id t =? i)%N)
      (<[k := set_completed (negb (TaskDoc.completed t)) t]> (tasks (db w)))
      = Some (set_completed (negb (TaskDoc.completed t)) t) /\
    post_tasks_id_toggle req w =
      (Normal (Responded (redirect "back" None)),
       snd (broadcastStats
              (saved_at k (set_completed (negb (TaskDoc.completed t)) t) w))).
Proof.
  intros Hcast Hfind.
  destruct (find_then_replace i (tasks (db w)) t
              (set_completed (negb (TaskDoc.completed t)) t) Hfind)
    as (k & Hk & Hid & Hrep & Hfind').
  { simpl. eapply find_some in Hfind. now apply N.eqb_eq. }
  exists k. repeat split; auto.
  unfold post_tasks_id_toggle, saved_at. run.
  rewrite Hcast. cbn. rewrite Hfind. cbn. rewrite Hrep. reflexivity.
Qed.

Lemma toggle_not_found (req : Request) (w : World) :
  (forall t, In t (tasks (db w)) ->
             castObjectId (params_id req) <> Some (TaskDoc._id t)) ->
  exists err ops,
    post_tasks_id_toggle req w =
      (Normal (next err),
       mkWorld (db w) (nextId w) (wss_clients w) (oplog w ++ ops)) /\
    (ops = [] \/ ops = [Read Tasks]) /\
    (err = CastError (params_id req) \/
     err = TypeError "Cannot read properties of null (reading 'completed')").
Proof.
  intros Habsent. unfold post_tasks_id_toggle. run.
  destruct (castObjectId (params_id req)) as [i|] eqn:Hcast; cbn.
  - assert (Hnone : List.find (fun t => (TaskDoc._id t =? i)%N)
                      (tasks (db w)) = None).
    { apply find_by_id_None. intros t Ht E. apply (Habsent t Ht). congruence. }
    rewrite Hnone. cbn.
    exists (TypeError "Cannot read properties of null (reading 'completed')"),
      [Read Tasks].
    auto.
  - exists (CastError (params_id req)), []. rewrite app_nil_r.
    destruct w; auto.
Qed.

Lemma some_task_found (i : ObjectId) (l : list TaskDoc.t) :
  (exists t, In t l /\ TaskDoc._id t = i) ->
  exists t, List.find (fun t => (TaskDoc._id t =? i)%N) l = Some t.
Proof.
  intros (t & Ht & Hid).
  destruct (List.find _ l) as [t'|] eqn:E; [eauto|].
  exfalso. exact (proj1 (find_by_id_None i l) E t Ht Hid).
Qed.

(** C2. Toggling under an id that no stored task carries ends in the
    generic error view (status 500), through [next(err)] and not through an
    escaping exception; the store and the viewers are left as they were
    and no write is issued.  The error is the cast failure of a malformed
    id, or the TypeError of reading [completed] of [null]. *)
Theorem toggle_absent_task (req : Request) (w : World) :
  (forall t, In t (tasks (db w)) ->
             castObjectId (params_id req) <> Some (TaskDoc._id t)) ->
  exists err w',
    serve post_tasks_id_toggle req w = (Some (errorHandler err), w') /\
    (err = CastError (params_id req) \/
     err = TypeError "Cannot read properties of null (reading 'completed')") /\
    db w' = db w /\
    wss_clients w' = wss_clients w /\
    no_new_write w w'.
Proof.
  intros Habsent.
  destruct (toggle_not_found req w Habsent)
    as (err & ops & Hrun & Hops & Herr).
  exists err. eexists. unfold serve. rewrite Hrun. split; [reflexivity|].
  split; [exact Herr|].
  cbn. repeat split. intros c Hc. apply in_app_or in Hc as [Hc|Hc]; auto.
  destruct Hops as [-> | ->]; only_reads Hc.
Qed.

(** C10. Toggling under the id of a stored task rewrites one position of
    the task collection: the task there keeps its id, title and project
    reference and has [completed] negated; every other position, the
    projects and the users are as before. *)
Theorem toggle_frame (req : Request) (w : World) (i : ObjectId) :
  castObjectId (params_id req) = Some i ->
  (exists t, In t (tasks (db w)) /\ TaskDoc._id t = i) ->
  exists (k : nat) (t t' : TaskDoc.t) (w' : World),
    post_tasks_id_toggle req w =
      (Normal (Responded (redirect "back" None)), w') /\
    tasks (db w) !! k = Some t /\
    TaskDoc._id t = i /\
    tasks (db w') !! k = Some t' /\
    TaskDoc.completed t' = negb (TaskDoc.completed t) /\
    TaskDoc._id t' = TaskDoc._id t /\
    TaskDoc.title t' = TaskDoc.title t /\
    TaskDoc.projectId t' = TaskDoc.projectId t /\
    length (tasks (db w')) = length (tasks (db w)) /\
    (forall j : nat, j <> k -> tasks (db w') !! j = tasks (db w) !! j) /\
    projects (db w') = projects (db w) /\
    users (db w') = users (db w).
Proof.
  intros Hcast Hex. destruct (some_task_found i _ Hex) as (t & Hfind).
  destruct (toggle_found req w i t Hcast Hfind)
    as (k & Hk & Hid & _ & Hrun).
  exists k, t, (set_completed (negb (TaskDoc.completed t)) t). eexists.
  split; [exact Hrun|].
  destruct (broadcastStats_returns
              (saved_at k (set_completed (negb (TaskDoc.completed t)) t) w))
    as (stats & w' & Hb & _ & Hdb & _).
  rewrite Hb. cbn [snd]. rewrite Hdb. unfold saved_at. cbn.
  repeat split; auto.
  - apply list_lookup_insert_eq. eapply lookup_lt_Some; eauto.
  - apply length_insert.
  - intros j Hj. apply list_lookup_insert_ne. congruence.
Qed.

(** Saving a document over the task found under its id, then saving the
    found task again, restores the collection. *)
Lemma replace_then_restore (i : ObjectId) (l : list TaskDoc.t)
    (t doc : TaskDoc.t) :
  List.find (fun t => (TaskDoc._id t =? i)%N) l = Some t ->
  TaskDoc._id doc = i ->
  exists l1,
    replace_by_id doc l = Some l1 /\
    List.find (fun t => (TaskDoc._id t =? i)%N) l1 = Some doc /\
    replace_by_id t l1 = Some l.
Proof.
  intros Hfind Hdoc.
  assert (Hid : TaskDoc._id t = i).
  { apply find_some in Hfind. now apply N.eqb_eq. }
  induction l as [|x l IH]; simpl in *; [discriminate|].
  destruct (N.eqb_spec (TaskDoc._id x) i) as [E|E].
  - injection Hfind as ->. rewrite Hdoc, E, N.eqb_refl.
    eexists. split; [reflexivity|]. simpl.
    rewrite Hdoc, E, !N.eqb_refl. auto.
  - destruct (IH Hfind) as (l1 & Hrep & Hfind1 & Hback).
    rewrite Hdoc. destruct (N.eqb_spec (TaskDoc._id x) i); [contradiction|].
    rewrite Hrep. eexists. split; [reflexivity|]. simpl.
    rewrite Hid. destruct (N.eqb_spec (TaskDoc._id x) i); [contradiction|].
    rewrite Hfind1, Hback. auto.
Qed.

Lemma toggle_saved (req : Request) (w : World) (i : ObjectId)
    (t : TaskDoc.t) (l1 : list TaskDoc.t) :
  castObjectId (params_id req) = Some i ->
  List.find (fun t => (TaskDoc._id t =? i)%N) (tasks (db w)) = Some t ->
  replace_by_id (set_completed (negb (TaskDoc.completed t)) t) (tasks (db w))
    = Some l1 ->
  post_tasks_id_toggle req w =
    (Normal (Responded (redirect "back" None)),
     snd (broadcastStats
            (mkWorld (mkDb (users (db w)) (projects (db w)) l1)
               (nextId w) (wss_clients w)
               ((oplog w ++ [Read Tasks]) ++ [Write Tasks])))).
Proof.
  intros Hcast Hfind Hrep. unfold post_tasks_id_toggle. run.
  rewrite Hcast. cbn. rewrite Hfind. cbn. rewrite Hrep. reflexivity.
Qed.

(** C6. Two successive toggles under the id of a stored task both
    redirect back; the first changes the store and the second restores it,
    so every task, the toggled one included, is in its original state. *)
Theorem toggle_twice (req : Request) (w : World) (i : ObjectId) :
  castObjectId (params_id req) = Some i ->
  (exists t, In t (tasks (db w)) /\ TaskDoc._id t = i) ->
  exists w1 w2 : World,
    post_tasks_id_toggle req w =
      (Normal (Responded (redirect "back" None)), w1) /\
    post_tasks_id_toggle req w1 =
      (Normal (Responded (redirect "back" None)), w2) /\
    db w1 <> db w /\
    db w2 = db w.
Proof.
  intros Hcast Hex. destruct (some_task_found i _ Hex) as (t & Hfind).
  set (t' := set_completed (negb (TaskDoc.completed t)) t).
  assert (Hid : TaskDoc._id t = i).
  { apply find_some in Hfind. now apply N.eqb_eq. }
  destruct (replace_then_restore i _ t t' Hfind Hid)
    as (l1 & Hrep & Hfind1 & Hback).
  pose proof (toggle_saved req w i t l1 Hcast Hfind Hrep) as Hrun1.
  destruct (broadcastStats_returns
              (mkWorld (mkDb (users (db w)) (projects (db w)) l1)
                 (nextId w) (wss_clients w)
                 ((oplog w ++ [Read Tasks]) ++ [Write Tasks])))
    as (s1 & w1 & Hb1 & _ & Hdb1 & _).
  rewrite Hb1 in Hrun1. cbn [snd] in Hrun1. cbn [db] in Hdb1.
  assert (Hfind1' : List.find (fun t => (TaskDoc._id t =? i)%N)
                      (tasks (db w1)) = Some t') by now rewrite Hdb1.
  assert (Hrep2 : replace_by_id
                    (set_completed (negb (TaskDoc.completed t')) t')
                    (tasks (db w1)) = Some (tasks (db w))).
  { rewrite Hdb1. cbn [tasks]. unfold t'. cbn [TaskDoc.completed set_completed].
    fold (set_completed (negb (TaskDoc.completed t)) t).
    rewrite set_completed_twice. exact Hback. }
  pose proof (toggle_saved req w1 i t' _ Hcast Hfind1' Hrep2) as Hrun2.
  destruct (broadcastStats_returns
              (mkWorld (mkDb (users (db w1)) (projects (db w1))
                          (tasks (db w)))
                 (nextId w1) (wss_clients w1)
                 ((oplog w1 ++ [Read Tasks]) ++ [Write Tasks])))
    as (s2 & w2 & Hb2 & _ & Hdb2 & _).
  rewrite Hb2 in Hrun2. cbn [snd] in Hrun2. cbn [db] in Hdb2.
  exists w1, w2. repeat split; auto.
  - rewrite Hdb1. intros E.
    assert (El : l1 = tasks (db w)) by (rewrite <- E; reflexivity).
    rewrite El in Hfind1. rewrite Hfind in Hfind1.
    injection Hfind1 as Et. apply (f_equal TaskDoc.completed) in Et.
    unfold t' in Et. cbn in Et. destruct (TaskDoc.completed t); discriminate.
  - rewrite Hdb2, Hdb1. cbn. now destruct (db w).
Qed.

(** ** Mutating actions and the broadcast *)

(** The world left by a broadcast: the snapshot every open client was
    sent is the one [computeStats] yields on that world. *)
Lemma after_broadcast (wm : World) :
  exists stats w'',
    computeStats (snd (broadcastStats wm)) = (Normal stats, w'') /\
    db (snd (broadcastStats wm)) = db wm /\
    Forall2 (delivered stats) (wss_clients wm)
      (wss_clients (snd (broadcastStats wm))).
Proof.
  destruct (broadcastStats_returns wm)
    as (stats & w' & Hb & Hs & Hdb & _ & _ & Hall).
  rewrite Hb. cbn [snd].
  destruct (computeStats_returns w') as (stats' & Hc & _).
  exists stats'. eexists. split; [exact Hc|]. split; [exact Hdb|].
  pose proof (computeStats_db w' wm Hdb) as E.
  rewrite Hc, Hs in E. cbn in E. injection E as ->. exact Hall.
Qed.

Lemma broadcastStats_normal (wm : World) :
  broadcastStats wm = (Normal tt, snd (broadcastStats wm)).
Proof.
  destruct (broadcastStats_returns wm) as (stats & w' & Hb & _).
  now rewrite Hb.
Qed.

Ltac step :=
  cbv [mbind M_bind mret M_ret throw try_catch get_db put_db log fresh_id
       required Project_create Task_create Task_findById Task_save
       User_findOne User_create bcrypt_hash_async bcrypt_compare_async
       auth_form serve errorHandler];
  cbn [db nextId wss_clients oplog users projects tasks fst snd].

Ltac broadcast_step :=
  match goal with
  | |- context [broadcastStats ?x] =>
      exists x; split; [reflexivity|];
      rewrite (broadcastStats_normal x) at 1; reflexivity
  end.

Lemma post_projects_cases (req : Request) (w : World) :
  post_projects req w =
    (Normal (Responded (render 200 "new-project"
                          (FormLocals None
                             (Some "Project name is required.")))), w) \/
  exists wm,
    wss_clients wm = wss_clients w /\
    post_projects req w =
      (Normal (Responded (redirect "/projects" None)),
       snd (broadcastStats wm)).
Proof.
  unfold post_projects. step.
  destruct (truthy (js_or _ _)) eqn:Ht; cbn; [|now left]. right.
  destruct (js_or _ _) as [s|]; [|discriminate]. cbn in Ht.
  destruct (s =? "") eqn:Es; [discriminate|]. cbn.
  broadcast_step.
Qed.

Lemma post_projects_id_tasks_cases (req : Request) (w : World) :
  (exists err w',
     post_projects_id_tasks req w = (Normal (next err), w') /\
     db w' = db w /\ wss_clients w' = wss_clients w /\
     oplog w' = oplog w) \/
  exists wm,
    wss_clients wm = wss_clients w /\
    post_projects_id_tasks req w =
      (Normal (Responded (redirect ("/projects/" +:+ params_id req) None)),
       snd (broadcastStats wm)).
Proof.
  unfold post_projects_id_tasks. step.
  destruct (truthy (Body.title (body req))) eqn:Ht; cbn.
  - destruct (Body.title (body req)) as [s|]; [|discriminate]. cbn in Ht.
    destruct (s =? "") eqn:Es; [discriminate|]. cbn.
    destruct (castObjectId (params_id req)) as [p|]; cbn.
    + right. broadcast_step.
    + left. do 2 eexists. split; [reflexivity|]. cbn. auto.
  - left. do 2 eexists. split; [reflexivity|]. auto.
Qed.

Lemma post_tasks_id_toggle_cases (req : Request) (w : World) :
  (exists err w',
     post_tasks_id_toggle req w = (Normal (next err), w') /\
     db w' = db w /\ wss_clients w' = wss_clients w /\
     no_new_write w w') \/
  exists wm,
    wss_clients wm = wss_clients w /\
    post_tasks_id_toggle req w =
      (Normal (Responded (redirect "back" None)), snd (broadcastStats wm)).
Proof.
  destruct (castObjectId (params_id req)) as [i|] eqn:Hcast.
  - destruct (List.find (fun t => (TaskDoc._id t =? i)%N) (tasks (db w)))
      as [t|] eqn:Hfind.
    + right.
      assert (Hid : TaskDoc._id t = i).
      { apply find_some in Hfind. now apply N.eqb_eq. }
      destruct (replace_then_restore i _ t
                  (set_completed (negb (TaskDoc.completed t)) t) Hfind Hid)
        as (l1 & Hrep & _).
      eexists. split; [|exact (toggle_saved req w i t l1 Hcast Hfind Hrep)].
      reflexivity.
    + left. unfold post_tasks_id_toggle. run. rewrite Hcast. cbn.
      rewrite Hfind. cbn. do 2 eexists. split; [reflexivity|]. cbn.
      repeat split. intros c Hc. apply in_app_or in Hc as [Hc|Hc]; auto.
      only_reads Hc.
  - left. unfold post_tasks_id_toggle. run. rewrite Hcast. cbn.
    do 2 eexists. split; [reflexivity|]. repeat split. intros c Hc. exact Hc.
Qed.

(** Read from the effect: whenever one of the three mutating handlers has
    changed the store, it redirects, and each viewer connection is treated
    per [delivered] with the snapshot that [computeStats] yields on the
    resulting world.  The statement from the request is
    [accepted_mutation_broadcasts] below. *)
Theorem mutation_broadcasts (a : mutating_action) (req : Request)
    (w w' : World) (r : completion Outcome) :
  handler_of a req w = (r, w') ->
  db w' <> db w ->
  exists url stats w'',
    r = Normal (Responded (redirect url None)) /\
    computeStats w' = (Normal stats, w'') /\
    Forall2 (delivered stats) (wss_clients w) (wss_clients w').
Proof.
  intros Hrun Hmut.
  assert (Hcases :
    (db w' = db w) \/
    exists url wm, wss_clients wm = wss_clients w /\
                   (r, w') = (Normal (Responded (redirect url None)),
                              snd (broadcastStats wm))).
  { destruct a; cbn [handler_of] in Hrun.
    - destruct (post_projects_cases req w) as [E | (wm & Hc & E)];
        rewrite E in Hrun; injection Hrun as <- <-;
        [now left | right; eauto].
    - destruct (post_projects_id_tasks_cases req w)
        as [(err & w1 & E & Hdb & _) | (wm & Hc & E)];
        rewrite E in Hrun; injection Hrun as <- <-;
        [now left | right; eauto].
    - destruct (post_tasks_id_toggle_cases req w)
        as [(err & w1 & E & Hdb & _) | (wm & Hc & E)];
        rewrite E in Hrun; injection Hrun as <- <-;
        [now left | right; eauto]. }
  destruct Hcases as [E | (url & wm & Hc & E)]; [contradiction|].
  injection E as -> ->.
  destruct (after_broadcast wm) as (stats & w'' & Hs & _ & Hall).
  exists url, stats, w''. rewrite <- Hc. auto.
Qed.

(** ** Validation in the creation handlers *)

(** C3 (as amended). A project creation request with neither a title nor
    a name re-renders the creation form with an inline message; a task
    creation request without a title goes to the generic error view with
    the error "Task title required".  Neither touches the store, the
    viewers or the operation log. *)
Theorem missing_title_outcomes (reqP reqT : Request) (w : World) :
  truthy (Body.title (body reqP)) = false ->
  truthy (Body.name (body reqP)) = false ->
  truthy (Body.title (body reqT)) = false ->
  serve post_projects reqP w =
    (Some (render 200 "new-project"
             (FormLocals None (Some "Project name is required."))), w) /\
  serve post_projects_id_tasks reqT w =
    (Some (render 500 "error" (ErrorLocals (Error "Task title required"))),
     w).
Proof.
  intros HtP HnP HtT. split.
  - unfold serve, post_projects, js_or. step. rewrite HtP, HnP. reflexivity.
  - unfold serve, post_projects_id_tasks. step. rewrite HtT. reflexivity.
Qed.

(** ** Registration and login *)

Lemma find_user_None (e : string) (l : list UserDoc.t) :
  (forall u, In u l -> UserDoc.email u <> e) ->
  List.find (fun u => UserDoc.email u =? e) l = None.
Proof.
  intros H. destruct (List.find _ l) as [u|] eqn:E; [|reflexivity].
  apply find_some in E as [Hin Heq]. apply String.eqb_eq in Heq.
  now destruct (H u Hin).
Qed.

Lemma find_user_Some (e : string) (l : list UserDoc.t) :
  (exists u, In u l /\ UserDoc.email u = e) ->
  exists u, List.find (fun u => UserDoc.email u =? e) l = Some u /\
            In u l /\ UserDoc.email u = e.
Proof.
  intros (u & Hin & He).
  destruct (List.find _ l) as [u'|] eqn:E.
  - exists u'. apply find_some in E as [Hin' Heq].
    apply String.eqb_eq in Heq. auto.
  - apply find_none with (x := u) in E; [|exact Hin].
    apply String.eqb_neq in E. contradiction.
Qed.

(** C5. A registration request whose email belongs to a stored user
    re-renders the registration form with an inline message, leaves the
    store as it was and issues no write; when the request is otherwise
    complete (name and password present, password confirmed) the message
    is "Email already registered.". *)
Theorem register_duplicate_email (req : Request) (w : World) (e : string) :
  Body.email (body req) = Some e ->
  (exists u, In u (users (db w)) /\ UserDoc.email u = e) ->
  exists message w',
    post_register req w =
      (Normal (Responded (render 200 "register"
                            (FormLocals (Some "auth-layout")
                               (Some message)))), w') /\
    db w' = db w /\
    no_new_write w w' /\
    (truthy (Body.name (body req)) = true ->
     truthy (Body.password (body req)) = true ->
     Body.password (body req) = Body.confirmPassword (body req) ->
     e <> "" ->
     message = "Email already registered.").
Proof.
  intros He Hex. destruct (find_user_Some e _ Hex) as (u & Hfind & _).
  assert (Hsame : forall message,
    (truthy (Body.name (body req)) = true ->
     truthy (Body.password (body req)) = true ->
     Body.password (body req) = Body.confirmPassword (body req) ->
     e <> "" -> message = "Email already registered.") ->
    exists message' w',
      (Normal (Responded (render 200 "register"
                            (FormLocals (Some "auth-layout")
                               (Some message)))), w) =
      (Normal (Responded (render 200 "register"
                            (FormLocals (Some "auth-layout")
                               (Some message')))), w') /\
      db w' = db w /\
      no_new_write w w' /\
      (truthy (Body.name (body req)) = true ->
       truthy (Body.password (body req)) = true ->
       Body.password (body req) = Body.confirmPassword (body req) ->
       e <> "" -> message' = "Email already registered.")).
  { intros message H. exists message, w. repeat split; auto.
    intros c Hc. exact Hc. }
  unfold post_register. step. rewrite He.
  destruct (truthy (Body.name (body req))) eqn:Hn; cbn;
    [|apply Hsame; discriminate].
  destruct (e =? "") eqn:Ee; cbn.
  { apply Hsame. apply String.eqb_eq in Ee. intros _ _ _ H. contradiction. }
  destruct (truthy (Body.password (body req))) eqn:Hp; cbn;
    [|apply Hsame; discriminate].
  destruct (strict_eq (Body.password (body req))
              (Body.confirmPassword (body req))) eqn:Hc; cbn.
  - rewrite Hfind. cbn. do 2 eexists. split; [reflexivity|]. cbn.
    repeat split; auto. intros c Hin.
    apply in_app_or in Hin as [Hin|Hin]; auto.
    only_reads Hin.
  - apply Hsame. intros _ _ Heq _.
    assert (strict_eq (Body.password (body req))
              (Body.confirmPassword (body req)) = true)
      by now apply strict_eq_spec.
    congruence.
Qed.

(** C9. A registration request whose password and confirmation differ is
    answered with the registration form and an inline message, and the
    world is returned exactly as it was: no store operation is issued and
    no user is created.  When name, email and password are all present the
    message is "Passwords do not match.". *)
Theorem register_password_mismatch (req : Request) (w : World) :
  Body.password (body req) <> Body.confirmPassword (body req) ->
  exists message,
    post_register req w =
      (Normal (Responded (render 200 "register"
                            (FormLocals (Some "auth-layout")
                               (Some message)))), w) /\
    (truthy (Body.name (body req)) = true ->
     truthy (Body.email (body req)) = true ->
     truthy (Body.password (body req)) = true ->
     message = "Passwords do not match.").
Proof.
  intros Hne.
  assert (Hc : strict_eq (Body.password (body req))
                 (Body.confirmPassword (body req)) = false).
  { destruct (strict_eq _ _) eqn:E; [|reflexivity].
    apply strict_eq_spec in E. contradiction. }
  unfold post_register. step.
  destruct (truthy (Body.name (body req))); cbn;
    [|eexists; split; [reflexivity|discriminate]].
  destruct (truthy (Body.email (body req))); cbn;
    [|eexists; split; [reflexivity|discriminate]].
  destruct (truthy (Body.password (body req))); cbn;
    [|eexists; split; [reflexivity|discriminate]].
  rewrite Hc. cbn. eexists. split; reflexivity.
Qed.

(** When a password string is submitted: a login attempt whose email
    matches no stored user and a login attempt whose email matches but
    whose password fails the comparison get the same reply, the login form
    with the one message "Invalid email or password.".  Without a password
    string the two are told apart, see [login_without_password]. *)
Theorem login_failures_indistinguishable (req1 req2 : Request)
    (w1 w2 : World) (p : string) :
  (forall u, In u (users (db w1)) ->
             Body.email (body req1) <> Some (UserDoc.email u)) ->
  (exists u, In u (users (db w2)) /\
             Body.email (body req2) = Some (UserDoc.email u)) ->
  Body.password (body req2) = Some p ->
  (forall u, In u (users (db w2)) ->
             Body.email (body req2) = Some (UserDoc.email u) ->
             bcrypt_compare p (UserDoc.passwordHash u) = false) ->
  fst (serve post_login req1 w1) =
    Some (render 200 "login"
            (FormLocals (Some "auth-layout")
               (Some "Invalid email or password."))) /\
  fst (serve post_login req2 w2) = fst (serve post_login req1 w1).
Proof.
  intros Hnone (u0 & Hin0 & He0) Hp Hwrong.
  assert (H1 : fst (serve post_login req1 w1) =
               Some (render 200 "login"
                       (FormLocals (Some "auth-layout")
                          (Some "Invalid email or password.")))).
  { unfold post_login. step.
    destruct (Body.email (body req1)) as [e1|]; [|reflexivity].
    rewrite find_user_None; [reflexivity|].
    intros u Hu E. apply (Hnone u Hu). congruence. }
  split; [exact H1|]. rewrite H1.
  destruct (find_user_Some (UserDoc.email u0) (users (db w2)))
    as (u & Hfind & Hin & He); [eauto|].
  unfold post_login. step. rewrite He0, Hfind. cbn. rewrite Hp. cbn.
  rewrite (Hwrong u Hin) by congruence. reflexivity.
Qed.

(** ** Registration and login, continued *)

Lemma truthy_Some (s : string) : s <> "" -> truthy (Some s) = true.
Proof. intros H. simpl. apply String.eqb_neq in H. now rewrite H. Qed.

Lemma truthy_true (v : field) :
  truthy v = true -> exists s, v = Some s /\ s <> "".
Proof.
  destruct v as [s|]; simpl; [|discriminate]. intros H. exists s.
  split; [reflexivity|]. apply String.eqb_neq.
  now destruct (s =? "").
Qed.

(** A registration request is answered with the form and a message, having
    at most read the users, or it is complete and new and inserts a user. *)
Lemma post_register_cases (req : Request) (w : World) :
  (exists message,
     post_register req w =
       (Normal (Responded (render 200 "register"
                             (FormLocals (Some "auth-layout")
                                (Some message)))),
        mkWorld (db w) (nextId w) (wss_clients w) (oplog w)) \/
     post_register req w =
       (Normal (Responded (render 200 "register"
                             (FormLocals (Some "auth-layout")
                                (Some message)))),
        mkWorld (db w) (nextId w) (wss_clients w)
          (oplog w ++ [Read Users]))) \/
  exists n e p,
    Body.name (body req) = Some n /\ n <> "" /\
    Body.email (body req) = Some e /\ e <> "" /\
    Body.password (body req) = Some p /\ p <> "" /\
    Body.confirmPassword (body req) = Some p /\
    (forall u, In u (users (db w)) -> UserDoc.email u <> e) /\
    post_register req w =
      (Normal (Responded (redirect "/" (Some (jwt_sign (nextId w) e)))),
       mkWorld
         (mkDb (users (db w) ++ [UserDoc.mk (nextId w) n e (bcrypt_hash p)])
            (projects (db w)) (tasks (db w)))
         (N.succ (nextId w)) (wss_clients w)
         ((oplog w ++ [Read Users]) ++ [Write Users])).
Proof.
  unfold post_register. step.
  destruct (truthy (Body.name (body req))) eqn:Hn; cbn;
    [|left; eexists; left; destruct w; reflexivity].
  destruct (truthy (Body.email (body req))) eqn:He; cbn;
    [|left; eexists; left; destruct w; reflexivity].
  destruct (truthy (Body.password (body req))) eqn:Hp; cbn;
    [|left; eexists; left; destruct w; reflexivity].
  destruct (strict_eq _ _) eqn:Hc; cbn;
    [|left; eexists; left; destruct w; reflexivity].
  apply truthy_true in Hn as (n & Hn & Hn').
  apply truthy_true in He as (e & He & He').
  apply truthy_true in Hp as (p & Hp & Hp').
  apply strict_eq_spec in Hc. rewrite Hp in Hc. symmetry in Hc.
  rewrite Hn, He, Hp.
  destruct (List.find (fun u => UserDoc.email u =? e) (users (db w)))
    as [u|] eqn:Hfind; cbn.
  - left. eexists. right. reflexivity.
  - right. exists n, e, p. repeat split; auto.
    + intros u Hu E. apply find_none with (x := u) in Hfind; [|exact Hu].
      apply String.eqb_neq in Hfind. contradiction.
    + apply String.eqb_neq in Hn', He'. rewrite Hn', He'. reflexivity.
Qed.

Lemma post_register_success (req : Request) (w : World) (n e p : string) :
  Body.name (body req) = Some n -> n <> "" ->
  Body.email (body req) = Some e -> e <> "" ->
  Body.password (body req) = Some p -> p <> "" ->
  Body.confirmPassword (body req) = Some p ->
  (forall u, In u (users (db w)) -> UserDoc.email u <> e) ->
  post_register req w =
    (Normal (Responded (redirect "/" (Some (jwt_sign (nextId w) e)))),
     mkWorld
       (mkDb (users (db w) ++ [UserDoc.mk (nextId w) n e (bcrypt_hash p)])
          (projects (db w)) (tasks (db w)))
       (N.succ (nextId w)) (wss_clients w)
       ((oplog w ++ [Read Users]) ++ [Write Users])).
Proof.
  intros Hn Hn' He He' Hp Hp' Hc Hnew.
  unfold post_register. step. rewrite Hn, He, Hp, Hc.
  rewrite !truthy_Some by assumption. cbn.
  rewrite String.eqb_refl. cbn.
  rewrite find_user_None by assumption. cbn.
  apply String.eqb_neq in Hn', He'. rewrite Hn', He'. reflexivity.
Qed.

(** X1. A complete registration request under an email no stored user has
    creates exactly one user, with the submitted name and email and the
    hash of the submitted password, leaves projects, tasks and viewers as
    they were, and redirects home with a token signed for the new user. *)
Theorem register_creates_user (req : Request) (w : World) (n e p : string) :
  Body.name (body req) = Some n -> n <> "" ->
  Body.email (body req) = Some e -> e <> "" ->
  Body.password (body req) = Some p -> p <> "" ->
  Body.confirmPassword (body req) = Some p ->
  (forall u, In u (users (db w)) -> UserDoc.email u <> e) ->
  exists (u : UserDoc.t) (w' : World),
    post_register req w =
      (Normal
         (Responded
            (redirect "/"
               (Some (jwt_sign (UserDoc._id u) (UserDoc.email u))))), w') /\
    users (db w') = users (db w) ++ [u] /\
    UserDoc.name u = n /\
    UserDoc.email u = e /\
    UserDoc.passwordHash u = bcrypt_hash p /\
    projects (db w') = projects (db w) /\
    tasks (db w') = tasks (db w) /\
    wss_clients w' = wss_clients w.
Proof.
  intros Hn Hn' He He' Hp Hp' Hc Hnew.
  exists (UserDoc.mk (nextId w) n e (bcrypt_hash p)). eexists.
  split; [exact (post_register_success req w n e p Hn Hn' He He' Hp Hp' Hc
                   Hnew)|].
  cbn. repeat split.
Qed.

(** X2. Registration keeps emails unique: if no two stored users share an
    email before a registration request, none do after it, whatever the
    request. *)
Theorem register_keeps_emails_unique (req : Request) (w : World) :
  List.NoDup (map UserDoc.email (users (db w))) ->
  List.NoDup
    (map UserDoc.email (users (db (snd (post_register req w))))).
Proof.
  intros Hnd.
  destruct (post_register_cases req w)
    as [(message & [E|E]) | (n & e & p & _ & _ & _ & _ & _ & _ & _ & Hnew & E)];
    rewrite E; cbn; auto.
  rewrite map_app. cbn.
  apply NoDup_ListNoDup, NoDup_app. repeat split.
  - now apply NoDup_ListNoDup.
  - intros x Hx Hx'. apply list_elem_of_In in Hx.
    apply list_elem_of_In in Hx'. cbn in Hx'. destruct Hx' as [<-|[]].
    apply in_map_iff in Hx as (u & Hu & Hin). exact (Hnew u Hin Hu).
  - apply NoDup_ListNoDup. constructor; [intros []|constructor].
Qed.

Lemma find_user_appended (e : string) (l : list UserDoc.t) (u : UserDoc.t) :
  (forall v, In v l -> UserDoc.email v <> e) ->
  UserDoc.email u = e ->
  List.find (fun u => UserDoc.email u =? e) (l ++ [u]) = Some u.
Proof.
  intros Hnew Hu. induction l as [|x l IH]; simpl.
  - rewrite Hu, String.eqb_refl. reflexivity.
  - destruct (String.eqb_spec (UserDoc.email x) e) as [E|E].
    + destruct (Hnew x); simpl; auto.
    + apply IH. intros v Hv. apply Hnew. now right.
Qed.

(** What a login request can lead to. *)
Lemma post_login_cases (req : Request) (w : World) :
  let w' := mkWorld (db w) (nextId w) (wss_clients w)
              (oplog w ++ [Read Users]) in
  post_login req w =
    (Normal (Responded (render 200 "login"
                          (FormLocals (Some "auth-layout")
                             (Some "Invalid email or password.")))), w') \/
  post_login req w =
    (Normal (next (Error "Illegal arguments: undefined, string")), w') \/
  exists u p,
    In u (users (db w)) /\
    Body.email (body req) = Some (UserDoc.email u) /\
    Body.password (body req) = Some p /\
    bcrypt_compare p (UserDoc.passwordHash u) = true /\
    post_login req w =
      (Normal
         (Responded
            (redirect "/"
               (Some (jwt_sign (UserDoc._id u) (UserDoc.email u))))), w').
Proof.
  unfold post_login. step.
  destruct (Body.email (body req)) as [e|]; [|now left].
  destruct (List.find _ _) as [u|] eqn:Hfind; cbn; [|now left].
  apply find_some in Hfind as [Hin He]. apply String.eqb_eq in He.
  destruct (Body.password (body req)) as [p|]; cbn; [|right; now left].
  destruct (bcrypt_compare p (UserDoc.passwordHash u)) eqn:Hok; cbn;
    [|now left].
  right. right. exists u, p. rewrite He. auto.
Qed.

(** X4. Login only reads: whatever the request, the store, the viewers and the
    id source are as before and no write is issued. *)
Theorem login_only_reads (req : Request) (w : World) :
  db (snd (post_login req w)) = db w /\
  nextId (snd (post_login req w)) = nextId w /\
  wss_clients (snd (post_login req w)) = wss_clients w /\
  no_new_write w (snd (post_login req w)).
Proof.
  assert (Hlog : forall c, In (Write c) (oplog w ++ [Read Users]) ->
                           In (Write c) (oplog w)).
  { intros c Hc. apply in_app_or in Hc as [Hc|Hc]; auto. only_reads Hc. }
  destruct (post_login_cases req w) as [E|[E|(u & p & _ & _ & _ & _ & E)]];
    rewrite E; cbn; repeat split; exact Hlog.
Qed.


(** X3. After a successful registration, a login with the same email and
    password is answered with a redirect home carrying the token signed for
    the user just created, provided the hash of a password passes the
    comparison with that password. *)
Theorem register_then_login (req login : Request) (w : World)
    (n e p : string) :
  Body.name (body req) = Some n -> n <> "" ->
  Body.email (body req) = Some e -> e <> "" ->
  Body.password (body req) = Some p -> p <> "" ->
  Body.confirmPassword (body req) = Some p ->
  (forall u, In u (users (db w)) -> UserDoc.email u <> e) ->
  bcrypt_compare p (bcrypt_hash p) = true ->
  Body.email (body login) = Some e ->
  Body.password (body login) = Some p ->
  fst (post_register req w) =
    Normal (Responded (redirect "/" (Some (jwt_sign (nextId w) e)))) /\
  fst (post_login login (snd (post_register req w))) =
    Normal (Responded (redirect "/" (Some (jwt_sign (nextId w) e)))) /\
  exists u, last (users (db (snd (post_register req w)))) = Some u /\
            UserDoc._id u = nextId w /\ UserDoc.email u = e.
Proof.
  intros Hn Hn' He He' Hp Hp' Hc Hnew Hok Hle Hlp.
  rewrite (post_register_success req w n e p Hn Hn' He He' Hp Hp' Hc Hnew).
  cbn [fst snd]. split; [reflexivity|]. split.
  - unfold post_login. step. rewrite Hle, Hlp.
    rewrite find_user_appended by auto. cbn. rewrite Hok. reflexivity.
  - cbn. rewrite last_snoc. eauto.
Qed.

(** ** Creation and toggling, continued *)

(** The snapshot computed after a broadcast, with its two counts. *)
Lemma after_broadcast_counts (wm : World) :
  exists stats w'',
    computeStats (snd (broadcastStats wm)) = (Normal stats, w'') /\
    db (snd (broadcastStats wm)) = db wm /\
    Stats.totalProjects stats = length (projects (db wm)) /\
    Stats.totalTasks stats = length (tasks (db wm)) /\
    Forall2 (delivered stats) (wss_clients wm)
      (wss_clients (snd (broadcastStats wm))).
Proof.
  destruct (after_broadcast wm) as (stats & w'' & Hs & Hdb & Hall).
  destruct (computeStats_returns (snd (broadcastStats wm)))
    as (stats' & Hs' & Hp & Ht).
  rewrite Hs in Hs'. injection Hs' as <- _.
  exists stats, w''. rewrite <- Hdb. auto.
Qed.

Lemma post_projects_success (req : Request) (w : World) (t : string) :
  js_or (Body.title (body req)) (Body.name (body req)) = Some t ->
  t <> "" ->
  post_projects req w =
    (Normal (Responded (redirect "/projects" None)),
     snd (broadcastStats
            (mkWorld
               (mkDb (users (db w))
                  (projects (db w) ++
                   [ProjectDoc.mk (nextId w) t
                      (Body.description (body req)) 0])
                  (tasks (db w)))
               (N.succ (nextId w)) (wss_clients w)
               (oplog w ++ [Write Projects])))).
Proof.
  intros Ht Hne. unfold post_projects. step. rewrite Ht.
  rewrite truthy_Some by assumption. cbn.
  apply String.eqb_neq in Hne. rewrite Hne. cbn.
  match goal with
  | |- context [broadcastStats ?x] =>
      rewrite (broadcastStats_normal x) at 1
  end.
  reflexivity.
Qed.

Lemma js_or_title (b : Body.t) (t : string) :
  (Body.title b = Some t \/
   (truthy (Body.title b) = false /\ Body.name b = Some t)) ->
  t <> "" ->
  js_or (Body.title b) (Body.name b) = Some t.
Proof.
  intros [H | [H1 H2]] Hne; unfold js_or.
  - rewrite H, truthy_Some by assumption. reflexivity.
  - now rewrite H1.
Qed.

(** X6. A project creation request with a title, or with a name and no title,
    appends one project carrying that title, the submitted description and
    progress 0, leaves users and tasks as they were, redirects to the
    project list, and every open viewer is sent the snapshot of the new
    store, in which the project count has grown by one. *)
Theorem project_creation_appends (req : Request) (w : World) (t : string) :
  (Body.title (body req) = Some t \/
   (truthy (Body.title (body req)) = false /\
    Body.name (body req) = Some t)) ->
  t <> "" ->
  exists (p : ProjectDoc.t) (w' : World) (stats : Stats.t) (w'' : World),
    post_projects req w =
      (Normal (Responded (redirect "/projects" None)), w') /\
    projects (db w') = projects (db w) ++ [p] /\
    ProjectDoc.title p = t /\
    ProjectDoc.description p = Body.description (body req) /\
    ProjectDoc.progress p = 0%Z /\
    users (db w') = users (db w) /\
    tasks (db w') = tasks (db w) /\
    computeStats w' = (Normal stats, w'') /\
    Stats.totalProjects stats = S (length (projects (db w))) /\
    Forall2 (delivered stats) (wss_clients w) (wss_clients w').
Proof.
  intros Ht Hne. pose proof (js_or_title (body req) t Ht Hne) as Hor.
  rewrite (post_projects_success req w t Hor Hne).
  match goal with
  | |- context [broadcastStats ?x] =>
      destruct (after_broadcast_counts x)
        as (stats & w'' & Hs & Hdb & Hp & _ & Hall)
  end.
  eexists. eexists. exists stats, w''. split; [reflexivity|].
  rewrite Hdb. cbn. cbn in Hp, Hall. rewrite length_app in Hp. cbn in Hp.
  repeat split; auto. rewrite Hp. lia.
Qed.

Lemma post_projects_id_tasks_success (req : Request) (w : World)
    (t : string) (pid : ObjectId) :
  Body.title (body req) = Some t ->
  t <> "" ->
  castObjectId (params_id req) = Some pid ->
  post_projects_id_tasks req w =
    (Normal (Responded (redirect ("/projects/" +:+ params_id req) None)),
     snd (broadcastStats
            (mkWorld
               (mkDb (users (db w)) (projects (db w))
                  (tasks (db w) ++ [TaskDoc.mk (nextId w) t false pid]))
               (N.succ (nextId w)) (wss_clients w)
               (oplog w ++ [Write Tasks])))).
Proof.
  intros Ht Hne Hcast. unfold post_projects_id_tasks. step. rewrite Ht.
  rewrite truthy_Some by assumption. cbn.
  apply String.eqb_neq in Hne. rewrite Hne. cbn. rewrite Hcast. cbn.
  match goal with
  | |- context [broadcastStats ?x] =>
      rewrite (broadcastStats_normal x) at 1
  end.
  reflexivity.
Qed.

(** X7. A task creation request with a title under an id that casts appends
    one task with that title, not completed, referring to that id, whether
    or not a project carries the id; projects and users are as before, the
    reply redirects to the project page, and every open viewer is sent the
    snapshot of the new store, in which the task count has grown by one. *)
Theorem task_creation_appends (req : Request) (w : World) (t : string)
    (pid : ObjectId) :
  Body.title (body req) = Some t ->
  t <> "" ->
  castObjectId (params_id req) = Some pid ->
  exists (task : TaskDoc.t) (w' : World) (stats : Stats.t) (w'' : World),
    post_projects_id_tasks req w =
      (Normal (Responded (redirect ("/projects/" +:+ params_id req) None)),
       w') /\
    tasks (db w') = tasks (db w) ++ [task] /\
    TaskDoc.title task = t /\
    TaskDoc.completed task = false /\
    TaskDoc.projectId task = pid /\
    projects (db w') = projects (db w) /\
    users (db w') = users (db w) /\
    computeStats w' = (Normal stats, w'') /\
    Stats.totalTasks stats = S (length (tasks (db w))) /\
    Forall2 (delivered stats) (wss_clients w) (wss_clients w').
Proof.
  intros Ht Hne Hcast.
  rewrite (post_projects_id_tasks_success req w t pid Ht Hne Hcast).
  match goal with
  | |- context [broadcastStats ?x] =>
      destruct (after_broadcast_counts x)
        as (stats & w'' & Hs & Hdb & _ & Hp & Hall)
  end.
  eexists. eexists. exists stats, w''. split; [reflexivity|].
  rewrite Hdb. cbn. cbn in Hp, Hall. rewrite length_app in Hp. cbn in Hp.
  repeat split; auto. rewrite Hp. lia.
Qed.

(** X8. A task creation request with a title under an id that does not cast
    is passed to the error view with a validation error; the store and the
    viewers are as before and no write is issued. *)
Theorem task_creation_bad_project_id (req : Request) (w : World) :
  truthy (Body.title (body req)) = true ->
  castObjectId (params_id req) = None ->
  exists message w',
    serve post_projects_id_tasks req w =
      (Some (render 500 "error" (ErrorLocals (ValidationError message))),
       w') /\
    db w' = db w /\
    wss_clients w' = wss_clients w /\
    oplog w' = oplog w.
Proof.
  intros Ht Hcast. apply truthy_true in Ht as (t & Ht & Hne).
  unfold post_projects_id_tasks. step. rewrite Ht.
  rewrite truthy_Some by assumption. cbn.
  apply String.eqb_neq in Hne. rewrite Hne. cbn. rewrite Hcast. cbn.
  do 2 eexists. split; [reflexivity|]. cbn. auto.
Qed.

(** The number of completed tasks in a collection. *)
Lemma completed_count_insert (l : list TaskDoc.t) (k : nat)
    (t t' : TaskDoc.t) :
  l !! k = Some t ->
  (length (List.filter TaskDoc.completed (<[k := t']> l))
   + (if TaskDoc.completed t then 1 else 0)
   = length (List.filter TaskDoc.completed l)
     + (if TaskDoc.completed t' then 1 else 0))%nat.
Proof.
  revert k. induction l as [|x l IH]; intros [|k] Hk; try discriminate.
  - injection Hk as ->. cbn.
    destruct (TaskDoc.completed t), (TaskDoc.completed t'); cbn; lia.
  - cbn in Hk. cbn. specialize (IH k Hk).
    destruct (TaskDoc.completed x); cbn; [f_equal|]; exact IH.
Qed.

(** X9. Toggling under the id of a stored task keeps the number of tasks and
    moves the number of completed tasks by exactly one: up when the task
    was not completed, down when it was. *)
Theorem toggle_moves_count_by_one (req : Request) (w : World)
    (i : ObjectId) :
  castObjectId (params_id req) = Some i ->
  (exists t, In t (tasks (db w)) /\ TaskDoc._id t = i) ->
  exists (t : TaskDoc.t) (w' : World),
    post_tasks_id_toggle req w =
      (Normal (Responded (redirect "back" None)), w') /\
    In t (tasks (db w)) /\
    TaskDoc._id t = i /\
    length (tasks (db w')) = length (tasks (db w)) /\
    ((TaskDoc.completed t = false /\
      length (List.filter TaskDoc.completed (tasks (db w'))) =
        S (length (List.filter TaskDoc.completed (tasks (db w))))) \/
     (TaskDoc.completed t = true /\
      S (length (List.filter TaskDoc.completed (tasks (db w')))) =
        length (List.filter TaskDoc.completed (tasks (db w))))).
Proof.
  intros Hcast Hex. destruct (some_task_found i _ Hex) as (t & Hfind).
  destruct (toggle_found req w i t Hcast Hfind) as (k & Hk & Hid & _ & Hrun).
  exists t. eexists. split; [exact Hrun|].
  destruct (after_broadcast
              (saved_at k (set_completed (negb (TaskDoc.completed t)) t) w))
    as (_ & _ & _ & Hdb & _).
  rewrite Hdb. unfold saved_at. cbn [db tasks].
  pose proof (completed_count_insert _ k t
                (set_completed (negb (TaskDoc.completed t)) t) Hk) as Hc.
  change (TaskDoc.completed (set_completed (negb (TaskDoc.completed t)) t))
    with (negb (TaskDoc.completed t)) in Hc.
  repeat split.
  - apply find_some in Hfind. exact (proj1 Hfind).
  - exact Hid.
  - apply length_insert.
  - destruct (TaskDoc.completed t); cbn [negb] in Hc |- *; [right|left];
      split; auto; lia.
Qed.

(** ** Handlers that change nothing *)

Lemma mutating_handler_cases (a : mutating_action) (req : Request)
    (w : World) :
  (db (snd (handler_of a req w)) = db w /\
   wss_clients (snd (handler_of a req w)) = wss_clients w /\
   no_new_write w (snd (handler_of a req w)) /\
   forall url cookie,
     fst (handler_of a req w) <> Normal (Responded (redirect url cookie))) \/
  exists url wm,
    wss_clients wm = wss_clients w /\
    handler_of a req w =
      (Normal (Responded (redirect url None)), snd (broadcastStats wm)).
Proof.
  destruct a; cbn [handler_of].
  - destruct (post_projects_cases req w) as [E | (wm & Hc & E)];
      rewrite E; [left | right; eauto].
    cbn. repeat split; try discriminate. intros c Hc. exact Hc.
  - destruct (post_projects_id_tasks_cases req w)
      as [(err & w1 & E & Hdb & Hcl & Hlog) | (wm & Hc & E)];
      rewrite E; [left | right; eauto].
    cbn. repeat split; auto; try discriminate.
    intros c Hc. now rewrite Hlog in Hc.
  - destruct (post_tasks_id_toggle_cases req w)
      as [(err & w1 & E & Hdb & Hcl & Hlog) | (wm & Hc & E)];
      rewrite E; [left | right; eauto].
    cbn. repeat split; auto; discriminate.
Qed.

(** X10. A mutating handler that does not answer with a redirect has changed
    nothing: the store and every viewer are as before, so nothing was
    broadcast, and no write was issued. *)
Theorem no_redirect_no_effect (a : mutating_action) (req : Request)
    (w : World) :
  (forall url cookie,
     fst (handler_of a req w) <> Normal (Responded (redirect url cookie))) ->
  db (snd (handler_of a req w)) = db w /\
  wss_clients (snd (handler_of a req w)) = wss_clients w /\
  no_new_write w (snd (handler_of a req w)).
Proof.
  intros Hno.
  destruct (mutating_handler_cases a req w)
    as [(Hdb & Hcl & Hlog & _) | (url & wm & _ & E)]; [auto|].
  exfalso. apply (Hno url None). now rewrite E.
Qed.

(** ** A viewer connects *)

Lemma alter_last {A} (f : A -> A) (l : list A) (x : A) :
  alter f (length l) (l ++ [x]) = l ++ [f x].
Proof. induction l as [|y l IH]; cbn; [reflexivity | now rewrite IH]. Qed.

Lemma connect_returns (w : World) :
  exists stats,
    fst (computeStats w) = Normal stats /\
    connect w =
      (Normal tt,
       mkWorld (db w) (nextId w)
         (wss_clients w ++
          [mkClient 1 [InfoMessage "Connected to live updates";
                       StatsMessage stats]])
         (oplog w ++ [Read Projects; Read Tasks])).
Proof.
  eexists. split; [run; reflexivity|].
  unfold connect, on_connection, ws_send. run.
  rewrite !alter_last, <- app_assoc. reflexivity.
Qed.

(** X11. A viewer that connects is appended to the connections with the greeting
    followed by the snapshot of the current store, in that order; the
    connections already there receive nothing, and the store is only
    read. *)
Theorem connection_greeting (w : World) :
  exists stats w0 w',
    computeStats w = (Normal stats, w0) /\
    connect w = (Normal tt, w') /\
    wss_clients w' =
      wss_clients w ++
      [mkClient 1 [InfoMessage "Connected to live updates";
                   StatsMessage stats]] /\
    db w' = db w /\
    no_new_write w w'.
Proof.
  destruct (connect_returns w) as (stats & Hs & Hc).
  destruct (computeStats_returns w) as (stats' & Hs' & _).
  rewrite Hs' in Hs. cbn in Hs. injection Hs as ->.
  exists stats. do 2 eexists. split; [exact Hs'|]. split; [exact Hc|].
  cbn. repeat split. intros c Hin.
  apply in_app_or in Hin as [Hin|Hin]; auto. only_reads Hin.
Qed.

(** X12. A viewer that connects after a mutating handler changed the store, and
    before anything else happens, is sent the very snapshot that the
    handler's broadcast delivered to the open viewers. *)
Theorem late_viewer_same_snapshot (a : mutating_action) (req : Request)
    (w w' : World) (r : completion Outcome) :
  handler_of a req w = (r, w') ->
  db w' <> db w ->
  exists stats w1,
    Forall2 (delivered stats) (wss_clients w) (wss_clients w') /\
    connect w' = (Normal tt, w1) /\
    wss_clients w1 =
      wss_clients w' ++
      [mkClient 1 [InfoMessage "Connected to live updates";
                   StatsMessage stats]].
Proof.
  intros Hrun Hmut.
  destruct (mutating_handler_cases a req w)
    as [(Hdb & _) | (url & wm & Hcl & E)].
  - rewrite Hrun in Hdb. contradiction.
  - rewrite E in Hrun. injection Hrun as <- <-.
    destruct (after_broadcast wm) as (stats & w'' & Hs & _ & Hall).
    destruct (connect_returns (snd (broadcastStats wm)))
      as (stats' & Hs' & Hc).
    rewrite Hs in Hs'. cbn in Hs'. injection Hs' as <-.
    exists stats. eexists. rewrite <- Hcl.
    split; [exact Hall|]. split; [exact Hc|]. reflexivity.
Qed.

(** ** Pages *)

Lemma find_project_None (i : ObjectId) (l : list ProjectDoc.t) :
  (forall p, In p l -> ProjectDoc._id p <> i) ->
  List.find (fun p => (ProjectDoc._id p =? i)%N) l = None.
Proof.
  intros H. destruct (List.find _ l) as [p|] eqn:E; [|reflexivity].
  apply find_some in E as [Hin Heq]. apply N.eqb_eq in Heq.
  now destruct (H p Hin).
Qed.

Lemma find_project_unique (l : list ProjectDoc.t) (p : ProjectDoc.t) :
  List.NoDup (map ProjectDoc._id l) ->
  In p l ->
  List.find (fun q => (ProjectDoc._id q =? ProjectDoc._id p)%N) l = Some p.
Proof.
  induction l as [|x l IH]; intros Hnd Hin; [destruct Hin|].
  cbn in Hnd. inversion Hnd as [|? ? Hx Hnd']; subst. cbn.
  destruct Hin as [->|Hin].
  - now rewrite N.eqb_refl.
  - destruct (N.eqb_spec (ProjectDoc._id x) (ProjectDoc._id p)) as [E|E].
    + exfalso. apply Hx. rewrite E. now apply in_map.
    + now apply IH.
Qed.

Lemma find_project_Some (i : ObjectId) (l : list ProjectDoc.t) :
  (exists p, In p l /\ ProjectDoc._id p = i) ->
  exists p, List.find (fun p => (ProjectDoc._id p =? i)%N) l = Some p /\
            In p l /\ ProjectDoc._id p = i.
Proof.
  intros (p & Hin & Hi).
  destruct (List.find _ l) as [q|] eqn:E.
  - exists q. apply find_some in E as [Hq Hq']. apply N.eqb_eq in Hq'. auto.
  - apply find_none with (x := p) in E; [|exact Hin].
    apply N.eqb_neq in E. contradiction.
Qed.

(** The tasks page always renders, one row per stored task. *)
Lemma get_tasks_returns (req : Request) (w : World) :
  exists w',
    get_tasks req w =
      (Normal
         (page "tasks"
            (TasksLocals
               (map (fun t =>
                       TaskRow.mk (TaskDoc._id t) (TaskDoc.title t)
                         (TaskDoc.completed t)
                         (match List.find
                                  (fun p => (ProjectDoc._id p
                                             =? TaskDoc.projectId t)%N)
                                  (projects (db w)) with
                          | Some p => ProjectDoc.title p
                          | None => "Unknown"
                          end))
                  (tasks (db w))))), w') /\
    db w' = db w /\
    nextId w' = nextId w /\
    wss_clients w' = wss_clients w /\
    no_new_write w w'.
Proof.
  unfold get_tasks, Task_find_populate. step.
  destruct (tasks (db w)) as [|t l]; cbn; rewrite ?map_map;
    (eexists; split; [reflexivity|]); cbn; repeat split;
    intros c Hc; repeat (apply in_app_or in Hc as [Hc|Hc]; auto);
    only_reads Hc.
Qed.

(** X13. The tasks page shows one row per stored task, in store order, with the
    task's id, title and completion; the row carries "Unknown" when no
    stored project has the id the task refers to, and the title of the
    owning project when project ids are unique. *)
Theorem tasks_page_rows (req : Request) (w : World) :
  exists rows w',
    get_tasks req w = (Normal (page "tasks" (TasksLocals rows)), w') /\
    Forall2
      (fun t row =>
         TaskRow.id row = TaskDoc._id t /\
         TaskRow.title row = TaskDoc.title t /\
         TaskRow.completed row = TaskDoc.completed t /\
         ((forall p, In p (projects (db w)) ->
                     ProjectDoc._id p <> TaskDoc.projectId t) ->
          TaskRow.projectTitle row = "Unknown") /\
         (forall p,
             List.NoDup (map ProjectDoc._id (projects (db w))) ->
             In p (projects (db w)) ->
             ProjectDoc._id p = TaskDoc.projectId t ->
             TaskRow.projectTitle row = ProjectDoc.title p))
      (tasks (db w)) rows.
Proof.
  destruct (get_tasks_returns req w) as (w' & Hrun & _).
  do 2 eexists. split; [exact Hrun|]. clear Hrun.
  induction (tasks (db w)) as [|t l IH]; cbn; [constructor|].
  constructor; [|exact IH]. cbn. repeat split.
  - intros Hnone. now rewrite find_project_None.
  - intros p Hnd Hin Hid. rewrite <- Hid.
    now rewrite find_project_unique.
Qed.

(** X14. After a task has been created under the id of a stored project, the
    tasks page shows the rows it showed before followed by a row for the
    new task, not completed and annotated with that project's title
    (project ids being unique). *)
Theorem created_task_listed_with_project_title (req list : Request)
    (w : World) (t : string) (p : ProjectDoc.t) :
  Body.title (body req) = Some t ->
  t <> "" ->
  castObjectId (params_id req) = Some (ProjectDoc._id p) ->
  In p (projects (db w)) ->
  List.NoDup (map ProjectDoc._id (projects (db w))) ->
  exists rows w1 w2,
    get_tasks list w = (Normal (page "tasks" (TasksLocals rows)), w1) /\
    get_tasks list (snd (post_projects_id_tasks req w)) =
      (Normal
         (page "tasks"
            (TasksLocals
               (rows ++
                [TaskRow.mk (nextId w) t false (ProjectDoc.title p)]))),
       w2).
Proof.
  intros Ht Hne Hcast Hin Hnd.
  destruct (get_tasks_returns list w) as (w1 & Hrun1 & _).
  rewrite (post_projects_id_tasks_success req w t _ Ht Hne Hcast).
  cbn [snd].
  match goal with
  | |- context [broadcastStats ?x] =>
      destruct (after_broadcast x) as (_ & _ & _ & Hdb & _);
      destruct (get_tasks_returns list (snd (broadcastStats x)))
        as (w2 & Hrun2 & _)
  end.
  do 3 eexists. split; [exact Hrun1|]. rewrite Hrun2, Hdb.
  cbn [db projects tasks]. rewrite map_app. cbn.
  now rewrite find_project_unique.
Qed.

Lemma get_projects_id_cases (req : Request) (w : World) :
  (castObjectId (params_id req) = None /\
   get_projects_id req w = (Normal (page_next (CastError (params_id req))),
                            w)) \/
  (exists i,
     castObjectId (params_id req) = Some i /\
     List.find (fun p => (ProjectDoc._id p =? i)%N) (projects (db w))
       = None /\
     get_projects_id req w =
       (Normal (page_next (Error "Project not found")),
        mkWorld (db w) (nextId w) (wss_clients w)
          (oplog w ++ [Read Projects]))) \/
  exists i p,
    castObjectId (params_id req) = Some i /\
    List.find (fun p => (ProjectDoc._id p =? i)%N) (projects (db w))
      = Some p /\
    get_projects_id req w =
      (Normal
         (page "project-detail"
            (ProjectDetailLocals
               (Summary.mk (ProjectDoc._id p) (ProjectDoc.title p)
                  (ProjectDoc.description p) (ProjectDoc.progress p))
               (List.filter
                  (fun t => (TaskDoc.projectId t =? ProjectDoc._id p)%N)
                  (tasks (db w))))),
       mkWorld (db w) (nextId w) (wss_clients w)
         (oplog w ++ [Read Projects; Read Tasks])).
Proof.
  unfold get_projects_id, Project_findById, Task_find_by_projectId. step.
  destruct (castObjectId (params_id req)) as [i|]; cbn.
  - destruct (List.find _ _) as [p|] eqn:Hfind; cbn.
    + right. right. exists i, p. rewrite num_or_zero, <- app_assoc. auto.
    + right. left. exists i. auto.
  - left. destruct w; auto.
Qed.

(** X15. The project page under an id that no stored project carries is passed
    to the error view: with the error "Project not found", or with the
    cast error of a malformed id.  Nothing is changed. *)
Theorem project_page_absent (req : Request) (w : World) :
  (forall p, In p (projects (db w)) ->
             castObjectId (params_id req) <> Some (ProjectDoc._id p)) ->
  exists err w',
    get_projects_id req w = (Normal (page_next err), w') /\
    (err = CastError (params_id req) \/ err = Error "Project not found") /\
    db w' = db w /\
    wss_clients w' = wss_clients w /\
    no_new_write w w'.
Proof.
  intros Habsent.
  destruct (get_projects_id_cases req w)
    as [(_ & E) | [(i & _ & _ & E) | (i & p & Hcast & Hfind & _)]].
  - do 2 eexists. split; [exact E|]. repeat split; auto.
    intros c Hc. exact Hc.
  - do 2 eexists. split; [exact E|]. cbn. repeat split; auto.
    intros c Hc. apply in_app_or in Hc as [Hc|Hc]; auto. only_reads Hc.
  - exfalso. apply find_some in Hfind as [Hin Heq]. apply N.eqb_eq in Heq.
    apply (Habsent p Hin). congruence.
Qed.


(** X17. The dashboard renders the snapshot [computeStats] yields on the
    current store, which is what a broadcast would send, and the project
    list page shows the same project summaries as that snapshot. *)
Theorem pages_agree_with_stats (req : Request) (w : World) :
  exists stats w0 w1 w2,
    computeStats w = (Normal stats, w0) /\
    get_dashboard req w =
      (Normal (page "dashboard" (DashboardLocals stats)), w1) /\
    get_projects req w =
      (Normal (page "projects" (ProjectsLocals (Stats.projects stats))),
       w2).
Proof.
  do 4 eexists. split; [run; reflexivity|].
  split; unfold get_dashboard, get_projects; run; reflexivity.
Qed.

(** X18. No page handler changes anything: after any of the four pages the
    store, the id source and the viewers are as before, and no write was
    issued. *)
Theorem pages_only_read (r : page_route) (req : Request) (w : World) :
  db (snd (page_handler_of r req w)) = db w /\
  nextId (snd (page_handler_of r req w)) = nextId w /\
  wss_clients (snd (page_handler_of r req w)) = wss_clients w /\
  no_new_write w (snd (page_handler_of r req w)).
Proof.
  assert (Hlog : forall ops c,
            Forall (fun op => exists k, op = Read k) ops ->
            In (Write c) (oplog w ++ ops) -> In (Write c) (oplog w)).
  { intros ops c Hops Hc. apply in_app_or in Hc as [Hc|Hc]; auto.
    rewrite Forall_forall in Hops.
    apply list_elem_of_In in Hc. destruct (Hops _ Hc) as (k & Hk).
    discriminate. }
  destruct r; cbn [page_handler_of].
  - unfold get_dashboard. run. rewrite <- app_assoc. repeat split.
    intros c. apply Hlog. repeat constructor; eauto.
  - unfold get_projects. run. repeat split.
    intros c. apply Hlog. repeat constructor; eauto.
  - destruct (get_projects_id_cases req w)
      as [(_ & E) | [(i & _ & _ & E) | (i & p & _ & _ & E)]];
      rewrite E; cbn; repeat split; intros c;
      [ auto | apply Hlog | apply Hlog ]; repeat constructor; eauto.
  - destruct (get_tasks_returns req w) as (w' & E & H).
    rewrite E. exact H.
Qed.

(** ** Every accepted mutating request is broadcast *)

(** C7. Each of the three mutating actions, on a request it accepts,
    changes the store, redirects without error, and treats every viewer
    connection per [delivered] with the one snapshot that [computeStats]
    yields on the store as changed: a client whose [readyState] is 1 has
    that stats message appended to what it was sent, every other client is
    left exactly as it was. *)
Theorem accepted_mutation_broadcasts (a : mutating_action) (req : Request)
    (w : World) :
  accepted a req w ->
  exists (url : string) (stats : Stats.t) (w' w'' : World),
    handler_of a req w = (Normal (Responded (redirect url None)), w') /\
    db w' <> db w /\
    computeStats w' = (Normal stats, w'') /\
    Forall2 (delivered stats) (wss_clients w) (wss_clients w').
Proof.
  destruct a; cbn [accepted handler_of].
  - intros (t & Hne & Ht).
    pose proof (js_or_title (body req) t Ht Hne) as Hor.
    rewrite (post_projects_success req w t Hor Hne).
    match goal with
    | |- context [broadcastStats ?x] =>
        destruct (after_broadcast x) as (stats & w'' & Hs & Hdb & Hall)
    end.
    eexists. exists stats. do 2 eexists. split; [reflexivity|].
    split; [|split; [exact Hs | exact Hall]].
    rewrite Hdb. cbn. intros E.
    apply (f_equal (fun d => length (projects d))) in E. cbn in E.
    rewrite length_app in E. cbn in E. lia.
  - intros (t & pid & Ht & Hne & Hcast).
    rewrite (post_projects_id_tasks_success req w t pid Ht Hne Hcast).
    match goal with
    | |- context [broadcastStats ?x] =>
        destruct (after_broadcast x) as (stats & w'' & Hs & Hdb & Hall)
    end.
    eexists. exists stats. do 2 eexists. split; [reflexivity|].
    split; [|split; [exact Hs | exact Hall]].
    rewrite Hdb. cbn. intros E.
    apply (f_equal (fun d => length (tasks d))) in E. cbn in E.
    rewrite length_app in E. cbn in E. lia.
  - intros (i & t0 & Hcast & Hin & Hid).
    destruct (some_task_found i (tasks (db w))) as (t & Hfind); [eauto|].
    destruct (toggle_found req w i t Hcast Hfind)
      as (k & Hk & _ & _ & Hrun).
    rewrite Hrun.
    destruct (after_broadcast
                (saved_at k (set_completed (negb (TaskDoc.completed t)) t)
                   w))
      as (stats & w'' & Hs & Hdb & Hall).
    eexists. exists stats. do 2 eexists. split; [reflexivity|].
    split; [|split; [exact Hs | exact Hall]].
    rewrite Hdb. unfold saved_at. cbn. intros E.
    apply (f_equal tasks) in E. cbn in E.
    pose proof (list_lookup_insert_eq (tasks (db w)) k
                  (set_completed (negb (TaskDoc.completed t)) t)
                  (lookup_lt_Some _ _ _ Hk)) as Hk'.
    rewrite E, Hk in Hk'. injection Hk' as Et.
    apply (f_equal TaskDoc.completed) in Et. cbn in Et.
    destruct (TaskDoc.completed t); discriminate.
Qed.

End App.

(** ** The completion figure on small stores *)

Lemma number_eqb_eq (a b : Number.number) : number_eqb a b = true -> a = b.
Proof.
  destruct a as [s| | |s m e], b as [s'| | |s' m' e']; cbn;
    try discriminate.
  - intros H. apply Bool.eqb_prop in H. congruence.
  - rewrite !andb_true_iff. intros [[H1 H2] H3].
    apply Bool.eqb_prop in H1. apply Pos.eqb_eq in H2.
    apply Z.eqb_eq in H3. congruence.
Qed.

Lemma percentages_checked_sound (bound c t : nat) :
  percentages_checked bound = true ->
  (c <= t)%nat -> (t <= bound)%nat -> percentage_checked c t = true.
Proof.
  unfold percentages_checked. intros H Hc Ht.
  rewrite forallb_forall in H. specialize (H t).
  rewrite forallb_forall in H. apply H; apply in_seq; lia.
Qed.

Lemma percentages_checked_100 : percentages_checked 100 = true.
Proof. vm_compute. reflexivity. Qed.

Lemma percentage_checked_small (c t : nat) :
  (c <= t)%nat -> (t <= 100)%nat -> percentage_checked c t = true.
Proof. apply percentages_checked_sound, percentages_checked_100. Qed.

Lemma completed_count_le (l : list TaskDoc.t) :
  (length (List.filter TaskDoc.completed l) <= length l)%nat.
Proof.
  induction l as [|x l IH]; cbn; [lia|].
  destruct (TaskDoc.completed x); cbn; lia.
Qed.

(** X19. On a store of at most 100 tasks, c of t completed, the completion
    figure is an integer between 0 and 100; it is the half-up rounding of
    100 * c / t, or exactly one below it, the latter only when 100 * c / t
    lies exactly halfway between two integers.  It is 0 when no task is
    completed and 100 when every task of a non-empty store is. *)
Theorem overallCompletion_within_one (w : World) :
  (length (tasks (db w)) <= 100)%nat ->
  exists (stats : Stats.t) (w' : World) (z : Z),
    computeStats w = (Normal stats, w') /\
    Stats.overallCompletion stats = Number.of_Z z /\
    (0 <= z <= 100)%Z /\
    let c := Z.of_nat (length (List.filter TaskDoc.completed
                                 (tasks (db w)))) in
    let t := Z.of_nat (length (tasks (db w))) in
    (z = round_half_up (100 * c) t \/
     (z = round_half_up (100 * c) t - 1 /\ (200 * c) mod (2 * t) = t))%Z /\
    (c = 0%Z -> z = 0%Z) /\
    ((0 < t)%Z -> c = t -> z = 100%Z).
Proof.
  intros Hsmall.
  pose proof (percentage_checked_small _ _
                (completed_count_le (tasks (db w))) Hsmall) as Hchk.
  set (cn := length (List.filter TaskDoc.completed (tasks (db w)))) in *.
  set (tn := length (tasks (db w))) in *.
  assert (Hfig : exists stats w',
             computeStats w = (Normal stats, w') /\
             Stats.overallCompletion stats = percentage cn tn).
  { do 2 eexists. split; reflexivity. }
  destruct Hfig as (stats & w' & Hrun & Hfig).
  unfold percentage_checked in Hchk. cbv zeta in Hchk.
  assert (Hok : forall z,
    number_eqb (percentage cn tn) (Number.of_Z z) &&
    (0 <=? z)%Z && (z <=? 100)%Z &&
    (if (cn =? 0)%nat then (z =? 0)%Z else true) &&
    (if (cn =? tn)%nat && (0 <? tn)%nat then (z =? 100)%Z else true) = true ->
    Stats.overallCompletion stats = Number.of_Z z /\
    (0 <= z <= 100)%Z /\
    (Z.of_nat cn = 0%Z -> z = 0%Z) /\
    ((0 < Z.of_nat tn)%Z -> Z.of_nat cn = Z.of_nat tn -> z = 100%Z)).
  { intros z. rewrite !andb_true_iff. intros [[[[H1 H2] H3] H4] H5].
    apply number_eqb_eq in H1. apply Z.leb_le in H2, H3.
    split; [congruence|]. split; [lia|]. split.
    - intros Hc. assert (cn = 0%nat) as Hc' by lia. rewrite Hc' in H4.
      cbn in H4. now apply Z.eqb_eq.
    - intros Ht Hc. assert (cn = tn) as Hc' by lia.
      rewrite Hc', Nat.eqb_refl in H5.
      assert ((0 <? tn)%nat = true) as Ht' by (apply Nat.ltb_lt; lia).
      rewrite Ht' in H5. cbn in H5. now apply Z.eqb_eq. }
  apply orb_true_iff in Hchk as [Hchk | Hchk].
  - destruct (Hok _ Hchk) as (H1 & H2 & H3 & H4).
    exists stats, w'. eexists. split; [exact Hrun|]. split; [exact H1|].
    split; [exact H2|]. cbv zeta. split; [now left|]. split; assumption.
  - apply andb_true_iff in Hchk as [Hchk Htie]. apply Z.eqb_eq in Htie.
    destruct (Hok _ Hchk) as (H1 & H2 & H3 & H4).
    exists stats, w'. eexists. split; [exact Hrun|]. split; [exact H1|].
    split; [exact H2|]. cbv zeta.
    split; [right; split; [reflexivity|exact Htie]|].
    split; assumption.
Qed.

(** ** The theorems at concrete inputs *)

Lemma toggle_absent_task_witness :
  exists err w',
    serve (post_tasks_id_toggle Sample.castObjectId)
      (Sample.on_id Sample.task_absent) Sample.world =
      (Some (errorHandler err), w') /\
    (err = CastError Sample.task_absent \/
     err = TypeError "Cannot read properties of null (reading 'completed')") /\
    db w' = db Sample.world /\
    wss_clients w' = wss_clients Sample.world /\
    no_new_write Sample.world w'.
Proof.
  apply (toggle_absent_task Sample.castObjectId
           (Sample.on_id Sample.task_absent) Sample.world).
  intros t Ht. simpl in Ht.
  destruct Ht as [<-|[<-|[<-|[]]]]; vm_compute; discriminate.
Defined.

Lemma toggle_frame_witness :
  exists (k : nat) (t t' : TaskDoc.t) (w' : World),
    post_tasks_id_toggle Sample.castObjectId (Sample.on_id Sample.task5)
      Sample.world =
      (Normal (Responded (redirect "back" None)), w') /\
    tasks (db Sample.world) !! k = Some t /\
    TaskDoc._id t = 5%N /\
    tasks (db w') !! k = Some t' /\
    TaskDoc.completed t' = negb (TaskDoc.completed t) /\
    TaskDoc._id t' = TaskDoc._id t /\
    TaskDoc.title t' = TaskDoc.title t /\
    TaskDoc.projectId t' = TaskDoc.projectId t /\
    length (tasks (db w')) = length (tasks (db Sample.world)) /\
    (forall j : nat,
        j <> k -> tasks (db w') !! j = tasks (db Sample.world) !! j) /\
    projects (db w') = projects (db Sample.world) /\
    users (db w') = users (db Sample.world).
Proof.
  apply (toggle_frame Sample.castObjectId (Sample.on_id Sample.task5)
           Sample.world 5%N).
  - reflexivity.
  - exists (TaskDoc.mk 5%N "Copy" false 1%N).
    split; [simpl; auto | reflexivity].
Defined.

Lemma toggle_twice_witness :
  exists w1 w2 : World,
    post_tasks_id_toggle Sample.castObjectId (Sample.on_id Sample.task5)
      Sample.world =
      (Normal (Responded (redirect "back" None)), w1) /\
    post_tasks_id_toggle Sample.castObjectId (Sample.on_id Sample.task5)
      w1 =
      (Normal (Responded (redirect "back" None)), w2) /\
    db w1 <> db Sample.world /\
    db w2 = db Sample.world.
Proof.
  apply (toggle_twice Sample.castObjectId (Sample.on_id Sample.task5)
           Sample.world 5%N).
  - reflexivity.
  - exists (TaskDoc.mk 5%N "Copy" false 1%N).
    split; [simpl; auto | reflexivity].
Defined.

Lemma mutation_broadcasts_witness :
  let run :=
    post_tasks_id_toggle Sample.castObjectId (Sample.on_id Sample.task5)
      Sample.world in
  exists url stats w'',
    fst run = Normal (Responded (redirect url None)) /\
    computeStats (snd run) = (Normal stats, w'') /\
    Forall2 (delivered stats) (wss_clients Sample.world)
      (wss_clients (snd run)).
Proof.
  intros run.
  apply (mutation_broadcasts Sample.castObjectId toggleTask
           (Sample.on_id Sample.task5) Sample.world).
  - apply surjective_pairing.
  - vm_compute. discriminate.
Defined.

Lemma missing_title_outcomes_witness :
  serve post_projects (Sample.on_id "") Sample.world =
    (Some (render 200 "new-project"
             (FormLocals None (Some "Project name is required."))),
     Sample.world) /\
  serve (post_projects_id_tasks Sample.castObjectId)
    (Sample.on_id "000000000000000000000001") Sample.world =
    (Some (render 500 "error" (ErrorLocals (Error "Task title required"))),
     Sample.world).
Proof.
  apply (missing_title_outcomes Sample.castObjectId (Sample.on_id "")
           (Sample.on_id "000000000000000000000001") Sample.world);
    reflexivity.
Defined.

(** Counterexample to C3 as stated: it is not the case that every request
    without a title is answered, by both creation handlers, with an inline
    message; the task creation handler answers with the generic error
    view. *)
Lemma task_title_missing_not_inline :
  ~ (forall (req : Request) (w : World),
        truthy (Body.title (body req)) = false ->
        (inline_error (fst (serve post_projects req w)) /\
         db (snd (serve post_projects req w)) = db w) /\
        (inline_error
           (fst (serve (post_projects_id_tasks Sample.castObjectId) req w)) /\
         db (snd (serve (post_projects_id_tasks Sample.castObjectId) req w))
           = db w)).
Proof.
  intros H.
  destruct (H (Sample.on_id "000000000000000000000001") Sample.world
              eq_refl) as (_ & (view & layout & message & E) & _).
  vm_compute in E. discriminate E.
Qed.

(** A project creation request without a title but with a name creates the
    project under that name. *)
Example project_name_stands_in_for_title :
  let req := mkRequest
               (Body.mk None (Some "Site") None None None None) "" in
  truthy (Body.title (body req)) = false /\
  fst (serve post_projects req Sample.world) =
    Some (redirect "/projects" None) /\
  projects (db (snd (serve post_projects req Sample.world))) =
    [Sample.project1; ProjectDoc.mk 200%N "Site" None 0].
Proof. vm_compute. repeat split. Qed.

Lemma register_duplicate_email_witness :
  exists message w',
    post_register Sample.bcrypt_hash Sample.jwt_sign
      (Sample.register_form "Ada L." "ada@example.org" "pw" "pw")
      Sample.world =
      (Normal (Responded (render 200 "register"
                            (FormLocals (Some "auth-layout")
                               (Some message)))), w') /\
    db w' = db Sample.world /\
    no_new_write Sample.world w' /\
    (true = true -> true = true ->
     Some "pw" = Some "pw" -> "ada@example.org" <> "" ->
     message = "Email already registered.").
Proof.
  apply (register_duplicate_email Sample.bcrypt_hash Sample.jwt_sign
           (Sample.register_form "Ada L." "ada@example.org" "pw" "pw")
           Sample.world "ada@example.org").
  - reflexivity.
  - exists Sample.ada. split; [simpl; auto | reflexivity].
Defined.

Lemma register_password_mismatch_witness :
  exists message,
    post_register Sample.bcrypt_hash Sample.jwt_sign
      (Sample.register_form "Bob" "bob@example.org" "pw" "pw2")
      Sample.world =
      (Normal (Responded (render 200 "register"
                            (FormLocals (Some "auth-layout")
                               (Some message)))), Sample.world) /\
    (true = true -> true = true -> true = true ->
     message = "Passwords do not match.").
Proof.
  apply (register_password_mismatch Sample.bcrypt_hash Sample.jwt_sign
           (Sample.register_form "Bob" "bob@example.org" "pw" "pw2")
           Sample.world).
  simpl. discriminate.
Defined.

Lemma login_failures_indistinguishable_witness :
  fst (serve (post_login Sample.bcrypt_compare Sample.jwt_sign)
         (Sample.login_form "bob@example.org" "s3cret") Sample.world) =
    Some (render 200 "login"
            (FormLocals (Some "auth-layout")
               (Some "Invalid email or password."))) /\
  fst (serve (post_login Sample.bcrypt_compare Sample.jwt_sign)
         (Sample.login_form "ada@example.org" "guess") Sample.world) =
  fst (serve (post_login Sample.bcrypt_compare Sample.jwt_sign)
         (Sample.login_form "bob@example.org" "s3cret") Sample.world).
Proof.
  apply (login_failures_indistinguishable Sample.bcrypt_compare
           Sample.jwt_sign
           (Sample.login_form "bob@example.org" "s3cret")
           (Sample.login_form "ada@example.org" "guess")
           Sample.world Sample.world "guess").
  - intros u [<-|[]]. simpl. discriminate.
  - exists Sample.ada. split; [simpl; auto | reflexivity].
  - reflexivity.
  - intros u [<-|[]] _. reflexivity.
Defined.

(** C8. Two failed login attempts that the reply tells apart: neither
    request carries a password; the one whose email belongs to a stored
    user raises in the comparison and is served the generic error view
    (status 500), the one whose email belongs to no stored user is served
    the login form with "Invalid email or password.". *)
Theorem login_without_password :
  let known :=
    mkRequest (Body.mk None None None (Some "ada@example.org") None None) "" in
  let unknown :=
    mkRequest (Body.mk None None None (Some "bob@example.org") None None) "" in
  let login := serve (post_login Sample.bcrypt_compare Sample.jwt_sign) in
  (exists u, In u (users (db Sample.world)) /\
             Body.email (body known) = Some (UserDoc.email u)) /\
  (forall u, In u (users (db Sample.world)) ->
             Body.email (body unknown) <> Some (UserDoc.email u)) /\
  fst (login known Sample.world) =
    Some (render 500 "error"
            (ErrorLocals (Error "Illegal arguments: undefined, string"))) /\
  fst (login unknown Sample.world) =
    Some (render 200 "login"
            (FormLocals (Some "auth-layout")
               (Some "Invalid email or password."))) /\
  fst (login known Sample.world) <> fst (login unknown Sample.world).
Proof.
  cbv zeta. split; [|split; [|split; [|split]]].
  - exists Sample.ada. split; [simpl; auto | reflexivity].
  - intros u [<-|[]]. discriminate.
  - vm_compute. reflexivity.
  - vm_compute. reflexivity.
  - vm_compute. discriminate.
Qed.

(** One task of three completed gives 33, and an empty store gives 0. *)
Example overallCompletion_1_of_3 :
  let w :=
    mkWorld
      (mkDb [] []
         [TaskDoc.mk 1%N "a" true 9%N; TaskDoc.mk 2%N "b" false 9%N;
          TaskDoc.mk 3%N "c" false 9%N]) 10%N [] [] in
  (exists stats w',
      computeStats w = (Normal stats, w') /\
      Stats.overallCompletion stats = Number.of_Z 33) /\
  round_half_up (100 * 1) 3 = 33%Z.
Proof.
  cbv zeta. split; [|reflexivity].
  do 2 eexists. split; vm_compute; reflexivity.
Qed.

(** ** The further theorems at concrete inputs *)

Lemma register_creates_user_witness :
  exists (u : UserDoc.t) (w' : World),
    post_register Sample.bcrypt_hash Sample.jwt_sign Scenario.bob_registers
      Sample.world =
      (Normal
         (Responded
            (redirect "/"
               (Some (Sample.jwt_sign (UserDoc._id u) (UserDoc.email u))))),
       w') /\
    users (db w') = users (db Sample.world) ++ [u] /\
    UserDoc.name u = "Bob" /\
    UserDoc.email u = "bob@example.org" /\
    UserDoc.passwordHash u = Sample.bcrypt_hash "hunter2" /\
    projects (db w') = projects (db Sample.world) /\
    tasks (db w') = tasks (db Sample.world) /\
    wss_clients w' = wss_clients Sample.world.
Proof.
  apply (register_creates_user Sample.bcrypt_hash Sample.jwt_sign
           Scenario.bob_registers Sample.world
           "Bob" "bob@example.org" "hunter2");
    try reflexivity; try discriminate.
  intros u [<-|[]]. discriminate.
Defined.

Lemma register_keeps_emails_unique_witness :
  List.NoDup
    (map UserDoc.email
       (users
          (db (snd (post_register Sample.bcrypt_hash Sample.jwt_sign
                      Scenario.bob_registers Sample.world))))).
Proof.
  apply (register_keeps_emails_unique Sample.bcrypt_hash Sample.jwt_sign
           Scenario.bob_registers Sample.world).
  constructor; [intros []|constructor].
Defined.

Lemma register_then_login_witness :
  let registered :=
    post_register Sample.bcrypt_hash Sample.jwt_sign Scenario.bob_registers
      Sample.world in
  fst registered =
    Normal
      (Responded
         (redirect "/"
            (Some (Sample.jwt_sign (nextId Sample.world)
                     "bob@example.org")))) /\
  fst (post_login Sample.bcrypt_compare Sample.jwt_sign Scenario.bob_logs_in
         (snd registered)) =
    Normal
      (Responded
         (redirect "/"
            (Some (Sample.jwt_sign (nextId Sample.world)
                     "bob@example.org")))) /\
  exists u, last (users (db (snd registered))) = Some u /\
            UserDoc._id u = nextId Sample.world /\
            UserDoc.email u = "bob@example.org".
Proof.
  apply (register_then_login Sample.bcrypt_hash Sample.bcrypt_compare
           Sample.jwt_sign Scenario.bob_registers Scenario.bob_logs_in
           Sample.world "Bob" "bob@example.org" "hunter2");
    try reflexivity; try discriminate.
  intros u [<-|[]]. discriminate.
Defined.


Lemma project_creation_appends_witness :
  exists (p : ProjectDoc.t) (w' : World) (stats : Stats.t) (w'' : World),
    post_projects Scenario.new_project Sample.world =
      (Normal (Responded (redirect "/projects" None)), w') /\
    projects (db w') = projects (db Sample.world) ++ [p] /\
    ProjectDoc.title p = "Docs" /\
    ProjectDoc.description p = Body.description (body Scenario.new_project) /\
    ProjectDoc.progress p = 0%Z /\
    users (db w') = users (db Sample.world) /\
    tasks (db w') = tasks (db Sample.world) /\
    computeStats w' = (Normal stats, w'') /\
    Stats.totalProjects stats = S (length (projects (db Sample.world))) /\
    Forall2 (delivered stats) (wss_clients Sample.world) (wss_clients w').
Proof.
  apply (project_creation_appends Scenario.new_project Sample.world "Docs").
  - left. reflexivity.
  - discriminate.
Defined.

Lemma task_creation_appends_witness :
  exists (task : TaskDoc.t) (w' : World) (stats : Stats.t) (w'' : World),
    post_projects_id_tasks Sample.castObjectId Scenario.new_task
      Sample.world =
      (Normal
         (Responded
            (redirect ("/projects/" +:+ params_id Scenario.new_task) None)),
       w') /\
    tasks (db w') = tasks (db Sample.world) ++ [task] /\
    TaskDoc.title task = "Outline" /\
    TaskDoc.completed task = false /\
    TaskDoc.projectId task = 1%N /\
    projects (db w') = projects (db Sample.world) /\
    users (db w') = users (db Sample.world) /\
    computeStats w' = (Normal stats, w'') /\
    Stats.totalTasks stats = S (length (tasks (db Sample.world))) /\
    Forall2 (delivered stats) (wss_clients Sample.world) (wss_clients w').
Proof.
  apply (task_creation_appends Sample.castObjectId Scenario.new_task
           Sample.world "Outline" 1%N).
  - reflexivity.
  - discriminate.
  - reflexivity.
Defined.

Lemma task_creation_bad_project_id_witness :
  exists message w',
    serve (post_projects_id_tasks Sample.castObjectId)
      Scenario.new_task_bad_id Sample.world =
      (Some (render 500 "error" (ErrorLocals (ValidationError message))),
       w') /\
    db w' = db Sample.world /\
    wss_clients w' = wss_clients Sample.world /\
    oplog w' = oplog Sample.world.
Proof.
  apply (task_creation_bad_project_id Sample.castObjectId
           Scenario.new_task_bad_id Sample.world); reflexivity.
Defined.

Lemma toggle_moves_count_by_one_witness :
  exists (t : TaskDoc.t) (w' : World),
    post_tasks_id_toggle Sample.castObjectId (Sample.on_id Sample.task5)
      Sample.world =
      (Normal (Responded (redirect "back" None)), w') /\
    In t (tasks (db Sample.world)) /\
    TaskDoc._id t = 5%N /\
    length (tasks (db w')) = length (tasks (db Sample.world)) /\
    ((TaskDoc.completed t = false /\
      length (List.filter TaskDoc.completed (tasks (db w'))) =
        S (length (List.filter TaskDoc.completed
                     (tasks (db Sample.world))))) \/
     (TaskDoc.completed t = true /\
      S (length (List.filter TaskDoc.completed (tasks (db w')))) =
        length (List.filter TaskDoc.completed (tasks (db Sample.world))))).
Proof.
  apply (toggle_moves_count_by_one Sample.castObjectId
           (Sample.on_id Sample.task5) Sample.world 5%N).
  - reflexivity.
  - exists (TaskDoc.mk 5%N "Copy" false 1%N).
    split; [simpl; auto | reflexivity].
Defined.

Lemma no_redirect_no_effect_witness :
  let run :=
    handler_of Sample.castObjectId toggleTask
      (Sample.on_id Sample.task_absent) Sample.world in
  db (snd run) = db Sample.world /\
  wss_clients (snd run) = wss_clients Sample.world /\
  no_new_write Sample.world (snd run).
Proof.
  apply (no_redirect_no_effect Sample.castObjectId toggleTask
           (Sample.on_id Sample.task_absent) Sample.world).
  intros url cookie. vm_compute. discriminate.
Defined.

Lemma late_viewer_same_snapshot_witness :
  let run :=
    handler_of Sample.castObjectId createTask Scenario.new_task
      Sample.world in
  exists stats w1,
    Forall2 (delivered stats) (wss_clients Sample.world)
      (wss_clients (snd run)) /\
    connect (snd run) = (Normal tt, w1) /\
    wss_clients w1 =
      wss_clients (snd run) ++
      [mkClient 1 [InfoMessage "Connected to live updates";
                   StatsMessage stats]].
Proof.
  intros run.
  apply (late_viewer_same_snapshot Sample.castObjectId createTask
           Scenario.new_task Sample.world (snd run) (fst run)).
  - apply surjective_pairing.
  - vm_compute. discriminate.
Defined.

Lemma created_task_listed_with_project_title_witness :
  exists rows w1 w2,
    get_tasks (Sample.on_id "") Sample.world =
      (Normal (page "tasks" (TasksLocals rows)), w1) /\
    get_tasks (Sample.on_id "")
      (snd (post_projects_id_tasks Sample.castObjectId Scenario.new_task
              Sample.world)) =
      (Normal
         (page "tasks"
            (TasksLocals
               (rows ++
                [TaskRow.mk (nextId Sample.world) "Outline" false
                   (ProjectDoc.title Sample.project1)]))), w2).
Proof.
  apply (created_task_listed_with_project_title Sample.castObjectId
           Scenario.new_task (Sample.on_id "") Sample.world "Outline"
           Sample.project1).
  - reflexivity.
  - discriminate.
  - reflexivity.
  - simpl. auto.
  - constructor; [intros []|constructor].
Defined.

Lemma project_page_absent_witness :
  exists err w',
    get_projects_id Sample.castObjectId (Sample.on_id Sample.task_absent)
      Sample.world = (Normal (page_next err), w') /\
    (err = CastError Sample.task_absent \/
     err = Error "Project not found") /\
    db w' = db Sample.world /\
    wss_clients w' = wss_clients Sample.world /\
    no_new_write Sample.world w'.
Proof.
  apply (project_page_absent Sample.castObjectId
           (Sample.on_id Sample.task_absent) Sample.world).
  intros p [<-|[]]. vm_compute. discriminate.
Defined.


Lemma overallCompletion_within_one_witness :
  exists (stats : Stats.t) (w' : World) (z : Z),
    computeStats Sample.world_23_of_40 = (Normal stats, w') /\
    Stats.overallCompletion stats = Number.of_Z z /\
    (0 <= z <= 100)%Z /\
    let c := Z.of_nat (length (List.filter TaskDoc.completed
                                 (tasks (db Sample.world_23_of_40)))) in
    let t := Z.of_nat (length (tasks (db Sample.world_23_of_40))) in
    (z = round_half_up (100 * c) t \/
     (z = round_half_up (100 * c) t - 1 /\ (200 * c) mod (2 * t) = t))%Z /\
    (c = 0%Z -> z = 0%Z) /\
    ((0 < t)%Z -> c = t -> z = 100%Z).
Proof.
  apply (overallCompletion_within_one Sample.world_23_of_40).
  simpl. lia.
Defined.

Lemma accepted_mutation_broadcasts_witness :
  (exists (url : string) (stats : Stats.t) (w' w'' : World),
      handler_of Sample.castObjectId createProject Scenario.new_project
        Sample.world = (Normal (Responded (redirect url None)), w') /\
      db w' <> db Sample.world /\
      computeStats w' = (Normal stats, w'') /\
      Forall2 (delivered stats) (wss_clients Sample.world)
        (wss_clients w')) /\
  (exists (url : string) (stats : Stats.t) (w' w'' : World),
      handler_of Sample.castObjectId createTask Scenario.new_task
        Sample.world = (Normal (Responded (redirect url None)), w') /\
      db w' <> db Sample.world /\
      computeStats w' = (Normal stats, w'') /\
      Forall2 (delivered stats) (wss_clients Sample.world)
        (wss_clients w')) /\
  (exists (url : string) (stats : Stats.t) (w' w'' : World),
      handler_of Sample.castObjectId toggleTask (Sample.on_id Sample.task5)
        Sample.world = (Normal (Responded (redirect url None)), w') /\
      db w' <> db Sample.world /\
      computeStats w' = (Normal stats, w'') /\
      Forall2 (delivered stats) (wss_clients Sample.world)
        (wss_clients w')).
Proof.
  split; [|split].
  - apply (accepted_mutation_broadcasts Sample.castObjectId createProject
             Scenario.new_project Sample.world).
    exists "Docs". split; [discriminate | left; reflexivity].
  - apply (accepted_mutation_broadcasts Sample.castObjectId createTask
             Scenario.new_task Sample.world).
    exists "Outline", 1%N. split; [reflexivity|].
    split; [discriminate | reflexivity].
  - apply (accepted_mutation_broadcasts Sample.castObjectId toggleTask
             (Sample.on_id Sample.task5) Sample.world).
    exists 5%N, (TaskDoc.mk 5%N "Copy" false 1%N).
    split; [reflexivity|]. split; [simpl; auto | reflexivity].
Defined.
